(** * ipinfo-bot: a shallow embedding of [main.py] and its verified properties

    The bot answers the chat command [ipinfo <target>] by one HTTPS lookup at
    ipinfo.io and renders the JSON answer as an embed.  This file embeds

    - the Python values the program handles (text, JSON/YAML values, dicts),
    - [json.dumps(data, indent=2, ensure_ascii=False)] and a JSON reader,
    - the presenter [make_embed_from_data],
    - the lookup client [fetch_ipinfo] and the handler [ipinfo_cmd],
    - the start-up code that resolves the credentials,
    - the command framework around the handler (argument binding, cooldown),

    and proves the properties of the specification about them.

    Conventions.  A Python [str] is a list of code points, so that [len]
    counts what Python counts.  A dict is an association list in insertion
    order (the order [json.dumps] and the dict comprehension follow); its keys
    are pairwise distinct, which is stated as [dict_ok] where a proof needs
    it.  Numbers are Python integers; floating-point values are outside the
    embedding. *)

From stdpp Require Import gmap.
From Stdlib Require Import List ZArith NArith Lia Bool String Ascii.
From Stdlib Require DecimalPos.
Import ListNotations.

Local Open Scope Z_scope.

(* ===================================================================== *)
(** * Text *)
(* ===================================================================== *)

(** A Python [str]: the sequence of its Unicode code points. *)
Definition pystr : Type := list N.

Definition pystr_eqb (a b : pystr) : bool :=
  if list_eq_dec N.eq_dec a b then true else false.

(** [len(s)] *)
Definition py_len (s : pystr) : Z := Z.of_nat (List.length s).

(** The source file is UTF-8: a literal of the program denotes the code
    points its bytes decode to. *)
Fixpoint utf8_decode (bs : list N) : pystr :=
  match bs with
  | [] => []
  | b0 :: r0 =>
    if (b0 <? 128)%N then b0 :: utf8_decode r0
    else
      match r0 with
      | [] => []
      | b1 :: r1 =>
        if (b0 <? 224)%N then ((b0 - 192) * 64 + (b1 - 128))%N :: utf8_decode r1
        else
          match r1 with
          | [] => []
          | b2 :: r2 =>
            if (b0 <? 240)%N
            then ((b0 - 224) * 4096 + (b1 - 128) * 64 + (b2 - 128))%N :: utf8_decode r2
            else
              match r2 with
              | [] => []
              | b3 :: r3 =>
                ((b0 - 240) * 262144 + (b1 - 128) * 4096
                 + (b2 - 128) * 64 + (b3 - 128))%N :: utf8_decode r3
              end
          end
      end
  end.

Definition lit (s : string) : pystr :=
  utf8_decode (List.map N_of_ascii (list_ascii_of_string s)).

(** [sep.join(parts)] *)
Fixpoint join (sep : pystr) (parts : list pystr) : pystr :=
  match parts with
  | [] => []
  | [p] => p
  | p :: rest => p ++ sep ++ join sep rest
  end.

(** Decimal digits of [int.__repr__]. *)
Fixpoint uint_digits (d : Decimal.uint) : pystr :=
  match d with
  | Decimal.Nil => []
  | Decimal.D0 d => 48%N :: uint_digits d
  | Decimal.D1 d => 49%N :: uint_digits d
  | Decimal.D2 d => 50%N :: uint_digits d
  | Decimal.D3 d => 51%N :: uint_digits d
  | Decimal.D4 d => 52%N :: uint_digits d
  | Decimal.D5 d => 53%N :: uint_digits d
  | Decimal.D6 d => 54%N :: uint_digits d
  | Decimal.D7 d => 55%N :: uint_digits d
  | Decimal.D8 d => 56%N :: uint_digits d
  | Decimal.D9 d => 57%N :: uint_digits d
  end.

Definition int_repr (z : Z) : pystr :=
  match Z.to_int z with
  | Decimal.Pos d => uint_digits d
  | Decimal.Neg d => 45%N :: uint_digits d
  end.

(** Lower-case hexadecimal digit of a value below 16. *)
Definition hexdigit (d : N) : N :=
  if (d <? 10)%N then (48 + d)%N else (87 + d)%N.

(** [split(",")] of a string: the pieces between the commas, always at least
    one piece. *)
Fixpoint split_comma (s : pystr) : list pystr :=
  match s with
  | [] => [[]]
  | c :: r =>
    if (c =? 44)%N then [] :: split_comma r
    else
      match split_comma r with
      | [] => [[c]]
      | p :: ps => (c :: p) :: ps
      end
  end.

(* ===================================================================== *)
(** * Values *)
(* ===================================================================== *)

Unset Elimination Schemes.

(** What [json.loads] and [yaml.safe_load] build (floats apart). *)
Inductive pyval : Type :=
| PNone
| PBool (b : bool)
| PInt (z : Z)
| PStr (s : pystr)
| PList (xs : list pyval)
| PDict (kvs : list (pystr * pyval)).

Set Elimination Schemes.

Definition pydict : Type := list (pystr * pyval).

(** Induction over nested values. *)
Section PyvalInd.
Variable P : pyval -> Prop.
Hypothesis HNone : P PNone.
Hypothesis HBool : forall b, P (PBool b).
Hypothesis HInt : forall z, P (PInt z).
Hypothesis HStr : forall s, P (PStr s).
Hypothesis HList : forall xs, Forall P xs -> P (PList xs).
Hypothesis HDict : forall kvs, Forall (fun kv => P (snd kv)) kvs -> P (PDict kvs).

Fixpoint pyval_nested_ind (v : pyval) : P v :=
  match v with
  | PNone => HNone
  | PBool b => HBool b
  | PInt z => HInt z
  | PStr s => HStr s
  | PList xs =>
    HList xs ((fix go (l : list pyval) : Forall P l :=
                 match l with
                 | [] => Forall_nil _
                 | x :: l' => @Forall_cons _ P x l' (pyval_nested_ind x) (go l')
                 end) xs)
  | PDict kvs =>
    HDict kvs ((fix go (l : list (pystr * pyval)) : Forall (fun kv => P (snd kv)) l :=
                  match l with
                  | [] => Forall_nil _
                  | kv :: l' =>
                    @Forall_cons _ (fun kv => P (snd kv)) kv l'
                                 (pyval_nested_ind (snd kv)) (go l')
                  end) kvs)
  end.
End PyvalInd.

(** Truth value of an object, as tested by [if val:], [or] and [not]. *)
Definition truthy (v : pyval) : bool :=
  match v with
  | PNone => false
  | PBool b => b
  | PInt z => negb (z =? 0)
  | PStr s => match s with [] => false | _ => true end
  | PList xs => match xs with [] => false | _ => true end
  | PDict kvs => match kvs with [] => false | _ => true end
  end.

(** [a or b] *)
Definition py_or (a b : pyval) : pyval := if truthy a then a else b.

(** ** Dicts *)

(** [d.get(k)]: the value stored under [k], if any. *)
Fixpoint dict_get (d : pydict) (k : pystr) : option pyval :=
  match d with
  | [] => None
  | (k', v) :: d' => if pystr_eqb k' k then Some v else dict_get d' k
  end.

(** [d.get(k)] with Python's default [None]. *)
Definition dict_get_none (d : pydict) (k : pystr) : pyval :=
  match dict_get d k with Some v => v | None => PNone end.

Definition dict_keys (d : pydict) : list pystr := List.map fst d.

(** Keys of a dict are pairwise distinct. *)
Definition dict_ok (d : pydict) : Prop := NoDup (dict_keys d).

(** [d[k] = v]: replace in place, or append. *)
Fixpoint dict_set (d : pydict) (k : pystr) (v : pyval) : pydict :=
  match d with
  | [] => [(k, v)]
  | (k', v') :: d' =>
    if pystr_eqb k' k then (k', v) :: d' else (k', v') :: dict_set d' k v
  end.

(** [dict(pairs)] *)
Definition dict_of_pairs (kvs : list (pystr * pyval)) : pydict :=
  fold_left (fun d kv => dict_set d (fst kv) (snd kv)) kvs [].

(** All dicts inside a value have distinct keys. *)
Fixpoint pyval_ok (v : pyval) : Prop :=
  match v with
  | PList xs => (fix all (l : list pyval) : Prop :=
                   match l with [] => True | x :: l' => pyval_ok x /\ all l' end) xs
  | PDict kvs =>
    NoDup (List.map fst kvs) /\
    (fix all (l : list (pystr * pyval)) : Prop :=
       match l with [] => True | kv :: l' => pyval_ok (snd kv) /\ all l' end) kvs
  | _ => True
  end.

(* ===================================================================== *)
(** * [repr] and [str] *)
(* ===================================================================== *)

Definition mem_char (c : N) (s : pystr) : bool := existsb (N.eqb c) s.

Section Repr.
(** [str.isprintable] of one character comes from the Unicode character
    database; [repr] consults it for code points from 128 on. *)
Variable isprintable : N -> bool.

(** Quote chosen by [repr] of a string. *)
Definition repr_quote (s : pystr) : N :=
  if mem_char 39 s && negb (mem_char 34 s) then 34%N else 39%N.

Definition repr_char (quote c : N) : pystr :=
  if (c =? quote)%N || (c =? 92)%N then [92%N; c]
  else if (c =? 9)%N then lit "\t"
  else if (c =? 10)%N then lit "\n"
  else if (c =? 13)%N then lit "\r"
  else if (c <? 32)%N || (c =? 127)%N
       then [92%N; 120%N; hexdigit (c / 16); hexdigit (c mod 16)]
  else if (c <? 127)%N then [c]
  else if isprintable c then [c]
  else if (c <=? 255)%N
       then [92%N; 120%N; hexdigit (c / 16); hexdigit (c mod 16)]
  else if (c <=? 65535)%N
       then [92%N; 117%N; hexdigit (c / 4096); hexdigit (c / 256 mod 16);
             hexdigit (c / 16 mod 16); hexdigit (c mod 16)]
  else [92%N; 85%N; hexdigit (c / 268435456 mod 16); hexdigit (c / 16777216 mod 16);
        hexdigit (c / 1048576 mod 16); hexdigit (c / 65536 mod 16);
        hexdigit (c / 4096 mod 16); hexdigit (c / 256 mod 16);
        hexdigit (c / 16 mod 16); hexdigit (c mod 16)].

Definition str_repr (s : pystr) : pystr :=
  let q := repr_quote s in
  q :: flat_map (repr_char q) s ++ [q].

Fixpoint py_repr (v : pyval) : pystr :=
  match v with
  | PNone => lit "None"
  | PBool true => lit "True"
  | PBool false => lit "False"
  | PInt z => int_repr z
  | PStr s => str_repr s
  | PList xs => lit "[" ++ join (lit ", ") (List.map py_repr xs) ++ lit "]"
  | PDict kvs =>
    lit "{" ++ join (lit ", ")
                    (List.map (fun kv => str_repr (fst kv) ++ lit ": " ++ py_repr (snd kv)) kvs)
        ++ lit "}"
  end.

(** [str(v)], which is also what an f-string field [{v}] inserts. *)
Definition py_str (v : pyval) : pystr :=
  match v with
  | PStr s => s
  | _ => py_repr v
  end.
End Repr.

(* ===================================================================== *)
(** * Exceptions *)
(* ===================================================================== *)

(** The exception classes that occur. The [Client...] classes and
    [ContentTypeError] are aiohttp's and derive from [aiohttp.ClientError];
    [JSONDecodeError] derives from [ValueError]; [AsyncioTimeoutError] is
    [asyncio.TimeoutError], which derives from neither. *)
Inductive exc_class : Type :=
| AttributeError
| ValueError
| JSONDecodeError
| ClientConnectorError
| ClientOSError
| ServerDisconnectedError
| ClientPayloadError
| ContentTypeError
| AsyncioTimeoutError
| OtherException.

(** An exception object: its class and [str(e)]. *)
Record exn : Type := Exn { exn_class : exc_class; exn_text : pystr }.

(** [isinstance(e, aiohttp.ClientError)] *)
Definition is_ClientError (c : exc_class) : bool :=
  match c with
  | ClientConnectorError | ClientOSError | ServerDisconnectedError
  | ClientPayloadError | ContentTypeError => true
  | _ => false
  end.

(** [isinstance(e, ValueError)] *)
Definition is_ValueError (c : exc_class) : bool :=
  match c with
  | ValueError | JSONDecodeError => true
  | _ => false
  end.

(** [isinstance(e, Exception)]: every class above. *)
Definition is_Exception (c : exc_class) : bool := true.

(** Outcome of an expression that may raise. *)
Inductive result (A : Type) : Type :=
| Ok (a : A)
| Raise (e : exn).
Arguments Ok {A} a.
Arguments Raise {A} e.

Definition rbind {A B} (m : result A) (k : A -> result B) : result B :=
  match m with
  | Ok a => k a
  | Raise e => Raise e
  end.

(** [try: m  except <classes>: h] *)
Definition try_except {A} (m : result A) (catches : exc_class -> bool)
           (h : exn -> result A) : result A :=
  match m with
  | Ok a => Ok a
  | Raise e => if catches (exn_class e) then h e else Raise e
  end.

Declare Scope result_scope.
Delimit Scope result_scope with result.
Notation "x <- m ;; k" := (rbind m (fun x => k))
  (at level 60, m at next level, right associativity) : result_scope.

(** Name of the type of a value, as error messages print it. *)
Definition type_name (v : pyval) : pystr :=
  match v with
  | PNone => lit "NoneType"
  | PBool _ => lit "bool"
  | PInt _ => lit "int"
  | PStr _ => lit "str"
  | PList _ => lit "list"
  | PDict _ => lit "dict"
  end.

Definition no_attribute (v : pyval) (attr : pystr) : exn :=
  Exn AttributeError
      (lit "'" ++ type_name v ++ lit "' object has no attribute '" ++ attr ++ lit "'").

(** [v.split(",")]: only a [str] has the method. *)
Definition py_split_comma (v : pyval) : result (list pystr) :=
  match v with
  | PStr s => Ok (split_comma s)
  | _ => Raise (no_attribute v (lit "split"))
  end.

(** [a, b = parts] *)
Definition unpack2 (parts : list pystr) : result (pystr * pystr) :=
  match parts with
  | [a; b] => Ok (a, b)
  | [] | [_] =>
    Raise (Exn ValueError
               (lit "not enough values to unpack (expected 2, got "
                    ++ int_repr (Z.of_nat (List.length parts)) ++ lit ")"))
  | _ => Raise (Exn ValueError (lit "too many values to unpack (expected 2)"))
  end.

(** [v.get(k, default)]: only a dict has the method. *)
Definition py_get (v : pyval) (k : pystr) (default : pyval) : result pyval :=
  match v with
  | PDict d => Ok (match dict_get d k with Some x => x | None => default end)
  | _ => Raise (no_attribute v (lit "get"))
  end.

(* ===================================================================== *)
(** * [json.dumps(data, indent=2, ensure_ascii=False)] *)
(* ===================================================================== *)

(** One character inside a JSON string: the quote, the backslash and the
    control characters are escaped, everything else is written as it is. *)
Definition escape_char (c : N) : pystr :=
  if (c =? 34)%N then [92%N; 34%N]
  else if (c =? 92)%N then [92%N; 92%N]
  else if (c =? 10)%N then [92%N; 110%N]
  else if (c =? 13)%N then [92%N; 114%N]
  else if (c =? 9)%N then [92%N; 116%N]
  else if (c =? 8)%N then [92%N; 98%N]
  else if (c =? 12)%N then [92%N; 102%N]
  else if (c <? 32)%N
       then [92%N; 117%N; 48%N; 48%N; hexdigit (c / 16); hexdigit (c mod 16)]
  else [c].

Definition encode_basestring (s : pystr) : pystr :=
  34%N :: flat_map escape_char s ++ [34%N].

(** A line break followed by the indentation of nesting depth [level]. *)
Definition newline_indent (level : nat) : pystr :=
  10%N :: repeat 32%N (2 * level).

Fixpoint dumps_at (level : nat) (v : pyval) : pystr :=
  match v with
  | PNone => lit "null"
  | PBool true => lit "true"
  | PBool false => lit "false"
  | PInt z => int_repr z
  | PStr s => encode_basestring s
  | PList [] => lit "[]"
  | PList xs =>
    lit "[" ++ newline_indent (S level)
        ++ join (lit "," ++ newline_indent (S level)) (List.map (dumps_at (S level)) xs)
        ++ newline_indent level ++ lit "]"
  | PDict [] => lit "{}"
  | PDict kvs =>
    lit "{" ++ newline_indent (S level)
        ++ join (lit "," ++ newline_indent (S level))
                (List.map (fun kv => encode_basestring (fst kv) ++ lit ": "
                                       ++ dumps_at (S level) (snd kv)) kvs)
        ++ newline_indent level ++ lit "}"
  end.

Definition json_dumps (v : pyval) : pystr := dumps_at 0 v.

(* ===================================================================== *)
(** * The embed *)
(* ===================================================================== *)

Record EmbedField : Type :=
  { field_name : pystr; field_value : pystr; field_inline : bool }.

Inductive Color : Type := blurple.

(** [discord.Embed], as far as the program uses it. *)
Record Embed : Type :=
  { embed_title : pystr;
    embed_color : Color;
    embed_fields : list EmbedField;
    embed_footer : option pystr }.

Definition new_embed (title : pystr) (color : Color) : Embed :=
  {| embed_title := title; embed_color := color;
     embed_fields := []; embed_footer := None |}.

Definition add_field (e : Embed) (name value : pystr) (inline : bool) : Embed :=
  {| embed_title := embed_title e; embed_color := embed_color e;
     embed_fields := embed_fields e ++ [{| field_name := name; field_value := value;
                                           field_inline := inline |}];
     embed_footer := embed_footer e |}.

Definition set_footer (e : Embed) (text : pystr) : Embed :=
  {| embed_title := embed_title e; embed_color := embed_color e;
     embed_fields := embed_fields e; embed_footer := Some text |}.

(** [len(embed)]: title, field names and values, footer text. *)
Definition embed_len (e : Embed) : Z :=
  py_len (embed_title e)
  + fold_right (fun f acc => py_len (field_name f) + py_len (field_value f) + acc)
               0 (embed_fields e)
  + match embed_footer e with Some t => py_len t | None => 0 end.

(* ===================================================================== *)
(** * The presenter: [make_embed_from_data] *)
(* ===================================================================== *)

(** The two link templates of the map field. *)
Definition osm_link (lat lon : pystr) : pystr :=
  lit "https://www.openstreetmap.org/?mlat=" ++ lat ++ lit "&mlon=" ++ lon
      ++ lit "#map=8/" ++ lat ++ lit "/" ++ lon.

Definition google_link (lat lon : pystr) : pystr :=
  lit "https://www.google.com/maps?q=" ++ lat ++ lit "," ++ lon.

Definition map_value (lat lon : pystr) : pystr :=
  lit "[OpenStreetMap](" ++ osm_link lat lon ++ lit ") | [Google Maps]("
      ++ google_link lat lon ++ lit ")".

Definition raw_value (pretty : pystr) : pystr :=
  lit "```json" ++ [10%N] ++ pretty ++ [10%N] ++ lit "```".

(** Label and result key of the display fields, in the order of the list
    [fields] of the source. *)
Definition FIELDS : list (pystr * pystr) :=
  [ (lit "IP", lit "ip");
    (lit "Hostname", lit "hostname");
    (lit "City", lit "city");
    (lit "Region", lit "region");
    (lit "Country", lit "country");
    (lit "Location (lat,long)", lit "loc");
    (lit "Organization", lit "org");
    (lit "Postal", lit "postal");
    (lit "Timezone", lit "timezone") ].

Section Presenter.
Variable isprintable : N -> bool.

Local Open Scope result_scope.

(** Body of the loop [for name, val in fields]. *)
Definition add_if_set (embed : Embed) (nv : pystr * pyval) : Embed :=
  if truthy (snd nv)
  then add_field embed (fst nv) (py_str isprintable (snd nv)) true
  else embed.

(** The [try] block that adds the map field. *)
Definition add_map_field (embed : Embed) (loc : pyval) : result Embed :=
  parts <- py_split_comma loc ;;
  latlon <- unpack2 parts ;;
  Ok (add_field embed (lit "Map") (map_value (fst latlon) (snd latlon)) false).

Definition make_embed_from_data (ip_or_host : pystr) (data : pydict) : result Embed :=
  let title := lit "IP info — " ++ ip_or_host in
  let embed := new_embed title blurple in
  let fields := List.map (fun lk => (fst lk, dict_get_none data (snd lk))) FIELDS in
  let embed := fold_left add_if_set fields embed in
  let loc := dict_get_none data (lit "loc") in
  embed <- (if truthy loc
            then try_except (add_map_field embed loc) is_Exception (fun _ => Ok embed)
            else Ok embed) ;;
  let pretty := json_dumps (PDict data) in
  let embed := if py_len pretty <? 1024
               then add_field embed (lit "Raw JSON") (raw_value pretty) false
               else embed in
  Ok (set_footer embed (lit "Data provided by ipinfo.io")).

End Presenter.

Definition ascii_printable (c : N) : bool := (32 <=? c)%N && (c <? 127)%N.

(* ===================================================================== *)
(** * Reading JSON back *)
(* ===================================================================== *)

(** The reader follows the grammar of [json.loads]: white space is blank,
    tab, line feed and carriage return; strings are strict (no raw control
    character); an integer is a zero or a non-zero digit followed by digits,
    with an optional minus sign before it. A number with a fraction
    or an exponent is a float and is outside the embedding: the reader gives
    no value for it. *)

Definition is_ws (c : N) : bool :=
  (c =? 32)%N || (c =? 9)%N || (c =? 10)%N || (c =? 13)%N.

Fixpoint skip_ws (s : pystr) : pystr :=
  match s with
  | [] => []
  | c :: r => if is_ws c then skip_ws r else s
  end.

Definition is_digit (c : N) : bool := (48 <=? c)%N && (c <=? 57)%N.

Definition hexval (c : N) : option N :=
  if is_digit c then Some (c - 48)%N
  else if (97 <=? c)%N && (c <=? 102)%N then Some (c - 87)%N
  else if (65 <=? c)%N && (c <=? 70)%N then Some (c - 55)%N
  else None.

Definition hex4 (a b c d : N) : option N :=
  match hexval a, hexval b, hexval c, hexval d with
  | Some x, Some y, Some z, Some w => Some (((x * 16 + y) * 16 + z) * 16 + w)%N
  | _, _, _, _ => None
  end.

Definition push_char (c : N) (r : option (pystr * pystr)) : option (pystr * pystr) :=
  match r with
  | Some (str, rest) => Some (c :: str, rest)
  | None => None
  end.

(** Character denoted by a one-letter escape. *)
Definition simple_escape (e : N) : option N :=
  if (e =? 34)%N then Some 34%N
  else if (e =? 92)%N then Some 92%N
  else if (e =? 47)%N then Some 47%N
  else if (e =? 98)%N then Some 8%N
  else if (e =? 102)%N then Some 12%N
  else if (e =? 110)%N then Some 10%N
  else if (e =? 114)%N then Some 13%N
  else if (e =? 116)%N then Some 9%N
  else None.

(** The text after an opening quote: the string it holds and what follows
    the closing quote. *)
Fixpoint scanstring (s : pystr) : option (pystr * pystr) :=
  match s with
  | [] => None
  | c :: r =>
    if (c =? 34)%N then Some ([], r)
    else if (c =? 92)%N then
      match r with
      | [] => None
      | e :: r1 =>
        if (e =? 117)%N then
          match r1 with
          | h1 :: h2 :: h3 :: h4 :: r2 =>
            match hex4 h1 h2 h3 h4 with
            | None => None
            | Some uni =>
              if (55296 <=? uni)%N && (uni <=? 56319)%N then
                match r2 with
                | b :: u :: g1 :: g2 :: g3 :: g4 :: r3 =>
                  if (b =? 92)%N && (u =? 117)%N then
                    match hex4 g1 g2 g3 g4 with
                    | None => None
                    | Some uni2 =>
                      if (56320 <=? uni2)%N && (uni2 <=? 57343)%N
                      then push_char (65536 + ((uni - 55296) * 1024 + (uni2 - 56320)))%N
                                     (scanstring r3)
                      else push_char uni (scanstring r2)
                    end
                  else push_char uni (scanstring r2)
                | _ => push_char uni (scanstring r2)
                end
              else push_char uni (scanstring r2)
            end
          | _ => None
          end
        else
          match simple_escape e with
          | Some ch => push_char ch (scanstring r1)
          | None => None
          end
      end
    else if (c <? 32)%N then None
    else push_char c (scanstring r)
  end.

Fixpoint span_digits (s : pystr) : pystr * pystr :=
  match s with
  | [] => ([], [])
  | c :: r =>
    if is_digit c then let (ds, rest) := span_digits r in (c :: ds, rest)
    else ([], s)
  end.

Definition digits_value (ds : pystr) : Z :=
  fold_left (fun acc c => acc * 10 + (Z.of_N c - 48)) ds 0.

(** Does a fraction [.d] or an exponent [e d], [e+d], [e-d] follow? *)
Definition float_tail (s : pystr) : bool :=
  match s with
  | c :: d :: r =>
    if (c =? 46)%N then is_digit d
    else if (c =? 101)%N || (c =? 69)%N then
      is_digit d ||
      (((d =? 43)%N || (d =? 45)%N) && match r with d' :: _ => is_digit d' | [] => false end)
    else false
  | _ => false
  end.

(** The integer literal at the head of [s], without its sign. *)
Definition scan_natural (s : pystr) : option (Z * pystr) :=
  match s with
  | [] => None
  | d :: r =>
    if (d =? 48)%N then Some (0, r)
    else if is_digit d then
      let (ds, rest) := span_digits r in Some (digits_value (d :: ds), rest)
    else None
  end.

Definition scan_number (s : pystr) : option (pyval * pystr) :=
  let signed := match s with
                | c :: r => if (c =? 45)%N then (true, r) else (false, s)
                | [] => (false, s)
                end in
  match scan_natural (snd signed) with
  | None => None
  | Some (n, rest) =>
    if float_tail rest then None
    else Some (PInt (if fst signed then - n else n), rest)
  end.

Fixpoint strip_prefix (p s : pystr) : option pystr :=
  match p, s with
  | [], _ => Some s
  | a :: p', b :: s' => if (a =? b)%N then strip_prefix p' s' else None
  | _ :: _, [] => None
  end.

(** [parse_value] reads the value at the head of the text, [parse_elements]
    the elements of a non-empty array up to its bracket, [parse_members] the
    members of a non-empty object up to its brace. [fuel] bounds the number of
    values read. *)
Fixpoint parse_value (fuel : nat) (s : pystr) {struct fuel} : option (pyval * pystr) :=
  match fuel with
  | O => None
  | S fuel' =>
    match s with
    | [] => None
    | c :: r =>
      if (c =? 34)%N then
        match scanstring r with
        | Some (str, rest) => Some (PStr str, rest)
        | None => None
        end
      else if (c =? 123)%N then
        match skip_ws r with
        | [] => None
        | c1 :: r2 =>
          if (c1 =? 125)%N then Some (PDict [], r2)
          else
            match parse_members fuel' (c1 :: r2) with
            | Some (kvs, rest) => Some (PDict (dict_of_pairs kvs), rest)
            | None => None
            end
        end
      else if (c =? 91)%N then
        match skip_ws r with
        | [] => None
        | c1 :: r2 =>
          if (c1 =? 93)%N then Some (PList [], r2)
          else
            match parse_elements fuel' (c1 :: r2) with
            | Some (xs, rest) => Some (PList xs, rest)
            | None => None
            end
        end
      else
        match strip_prefix (lit "null") s with
        | Some rest => Some (PNone, rest)
        | None =>
          match strip_prefix (lit "true") s with
          | Some rest => Some (PBool true, rest)
          | None =>
            match strip_prefix (lit "false") s with
            | Some rest => Some (PBool false, rest)
            | None => scan_number s
            end
          end
        end
    end
  end

with parse_elements (fuel : nat) (s : pystr) {struct fuel} : option (list pyval * pystr) :=
  match fuel with
  | O => None
  | S fuel' =>
    match parse_value fuel' s with
    | None => None
    | Some (v, rest) =>
      match skip_ws rest with
      | [] => None
      | c :: r =>
        if (c =? 93)%N then Some ([v], r)
        else if (c =? 44)%N then
          match parse_elements fuel' (skip_ws r) with
          | Some (vs, rest') => Some (v :: vs, rest')
          | None => None
          end
        else None
      end
    end
  end

with parse_members (fuel : nat) (s : pystr) {struct fuel}
  : option (list (pystr * pyval) * pystr) :=
  match fuel with
  | O => None
  | S fuel' =>
    match s with
    | [] => None
    | q :: r =>
      if (q =? 34)%N then
        match scanstring r with
        | None => None
        | Some (key, r1) =>
          match skip_ws r1 with
          | [] => None
          | c1 :: r2 =>
            if (c1 =? 58)%N then
              match parse_value fuel' (skip_ws r2) with
              | None => None
              | Some (v, r3) =>
                match skip_ws r3 with
                | [] => None
                | c2 :: r4 =>
                  if (c2 =? 125)%N then Some ([(key, v)], r4)
                  else if (c2 =? 44)%N then
                    match parse_members fuel' (skip_ws r4) with
                    | Some (kvs, rest') => Some ((key, v) :: kvs, rest')
                    | None => None
                    end
                  else None
                end
              end
            else None
          end
        end
      else None
    end
  end.

(** [json.loads(text)]: one value, white space around it, nothing else. *)
Definition json_loads (text : pystr) : option pyval :=
  match parse_value (S (List.length text)) (skip_ws text) with
  | Some (v, rest) => match skip_ws rest with [] => Some v | _ :: _ => None end
  | None => None
  end.

(** The JSON text inside a raw-payload block: what stands between the
    opening fence line and the closing fence line. *)
Definition fenced_content (value : pystr) : option pystr :=
  match strip_prefix (lit "```json" ++ [10%N]) value with
  | Some body =>
    match strip_prefix (rev ([10%N] ++ lit "```")) (rev body) with
    | Some r => Some (rev r)
    | None => None
    end
  | None => None
  end.

(* ===================================================================== *)
(** * Handlers and what they do *)
(* ===================================================================== *)

(** What a handler does that can be observed from outside. [Render] records
    a call of the presenter. *)
Inductive event : Type :=
| Typing
| HttpGet (url : pystr) (params : pydict) (timeout_total : Z)
| LogException (msg : pystr)
| Render (ip_or_host : pystr) (data : pydict)
| Send (content : pystr)
| SendEmbed (embed : Embed).

(** A coroutine of the program: the events it produced, and its value or the
    exception that left it. *)
Definition handler (A : Type) : Type := (list event * result A)%type.

Definition hret {A} (a : A) : handler A := ([], Ok a).

Definition hbind {A B} (m : handler A) (k : A -> handler B) : handler B :=
  match m with
  | (tr, Ok a) => let (tr', r) := k a in (tr ++ tr', r)
  | (tr, Raise e) => (tr, Raise e)
  end.

Definition emit (ev : event) : handler unit := ([ev], Ok tt).

Definition lift {A} (r : result A) : handler A := ([], r).

(** [try: m  except ...], with [h e = None] when no clause matches [e]. *)
Definition hcatch {A} (m : handler A) (h : exn -> option (handler A)) : handler A :=
  match m with
  | (tr, Ok a) => (tr, Ok a)
  | (tr, Raise e) =>
    match h e with
    | Some k => let (tr', r) := k in (tr ++ tr', r)
    | None => (tr, Raise e)
    end
  end.

Declare Scope handler_scope.
Delimit Scope handler_scope with handler.
Notation "x <- m ;; k" := (hbind m (fun x => k))
  (at level 60, m at next level, right associativity) : handler_scope.
Notation "m ;;; k" := (hbind m (fun _ => k))
  (at level 60, right associativity) : handler_scope.

(** What the HTTP client meets when it sends the request. *)
Record http_response : Type :=
  { resp_status : Z;          (* [resp.status] *)
    resp_text : pystr;        (* [await resp.text()] *)
    resp_json : result pyval  (* [await resp.json()] *) }.

Inductive http_outcome : Type :=
| Failed (e : exn)               (* [session.get] or [resp.text()] raises *)
| Responded (r : http_response).

(** The network-level failures the specification names. *)
Inductive network_failure : Type :=
| DnsFailure
| ConnectionReset
| TotalTimeout.

(** What aiohttp raises for them: a failed name resolution is a
    [ClientConnectorError], a reset connection a [ClientOSError], and the
    expiry of [ClientTimeout(total=...)] a bare [asyncio.TimeoutError]. *)
Definition aiohttp_raises (f : network_failure) (detail : pystr) : exn :=
  match f with
  | DnsFailure => Exn ClientConnectorError detail
  | ConnectionReset => Exn ClientOSError detail
  | TotalTimeout => Exn AsyncioTimeoutError detail
  end.

Definition usage_hint : pystr :=
  lit "Debes indicar una IP o hostname. Ejemplo: `!ipinfo 8.8.8.8`".

Definition bogon_notice : pystr :=
  lit "La IP consultada es un bogon/reservada y no tiene información pública.".

(** [{k: data[k] for k in data if k != "raw"}] *)
Definition drop_raw (data : pydict) : pydict :=
  flat_map (fun k => if pystr_eqb k (lit "raw") then []
                     else match dict_get data k with
                          | Some v => [(k, v)]
                          | None => []
                          end)
           (dict_keys data).

Section Dispatcher.
Variable isprintable : N -> bool.
(** The module-level [ipinfo_token]. *)
Variable ipinfo_token : pyval.
(** The network: the outcome of a GET of a URL with query parameters. *)
Variable net : pystr -> pydict -> http_outcome.

Local Open Scope handler_scope.

Definition fetch_ipinfo (ip_or_host : pystr) : handler pyval :=
  let base_url := lit "https://ipinfo.io/" ++ ip_or_host ++ lit "/json" in
  let params := if truthy ipinfo_token then [(lit "token", ipinfo_token)] else [] in
  emit (HttpGet base_url params 10) ;;;
  match net base_url params with
  | Failed e => lift (Raise e)
  | Responded resp =>
    if negb (resp_status resp =? 200)
    then lift (Raise (Exn ValueError
                          (lit "ipinfo returned status " ++ int_repr (resp_status resp)
                               ++ lit ": " ++ resp_text resp)))
    else lift (resp_json resp)
  end.

(** A call of the presenter, recorded in the trace. *)
Definition render (target : pystr) (data : pydict) : handler Embed :=
  emit (Render target data) ;;;
  lift (make_embed_from_data isprintable target data).

(** The [except] clauses around the lookup, in their order. Each replies
    and returns. *)
Definition fetch_failed (e : exn) : option (handler (option pyval)) :=
  if is_ClientError (exn_class e) then
    Some (emit (LogException (lit "Network error fetching ipinfo")) ;;;
          emit (Send (lit "Error de red al consultar ipinfo: " ++ exn_text e)) ;;;
          hret None)
  else if is_ValueError (exn_class e) then
    Some (emit (Send (lit "Error al obtener datos: " ++ exn_text e)) ;;;
          hret None)
  else if is_Exception (exn_class e) then
    Some (emit (LogException (lit "Unexpected error")) ;;;
          emit (Send (lit "Error inesperado: " ++ exn_text e)) ;;;
          hret None)
  else None.

(** The body of [ipinfo_cmd]. *)
Definition ipinfo_cmd (target : pystr) : handler unit :=
  emit Typing ;;;
  if negb (truthy (PStr target)) then emit (Send usage_hint)
  else
    fetched <- hcatch (data <- fetch_ipinfo target ;; hret (Some data)) fetch_failed ;;
    match fetched with
    | None => hret tt
    | Some data =>
      bogon <- lift (py_get data (lit "bogon") PNone) ;;
      if truthy bogon then emit (Send bogon_notice)
      else
        err <- lift (py_get data (lit "error") PNone) ;;
        if truthy err then emit (Send (lit "ipinfo error: " ++ py_str isprintable err))
        else
          match data with
          | PDict d =>
            embed <- render target d ;;
            embed <- (if embed_len embed >? 6000
                      then render target (drop_raw d)
                      else hret embed) ;;
            emit (SendEmbed embed)
          | _ => lift (Raise (no_attribute data (lit "get")))
          end
    end.

(** [help_cmd], for the command prefix in force. *)
Definition help_cmd (prefix : pyval) : handler unit :=
  emit (Send (lit "`" ++ py_str isprintable prefix
                  ++ lit "ipinfo <ip_or_hostname>` — Busca información pública de una IP/host en ipinfo.io"
                  ++ [10%N]
                  ++ lit "Ejemplo: `!ipinfo 8.8.8.8` o `!ipinfo example.com`")).

End Dispatcher.

(* ===================================================================== *)
(** * The command framework around [ipinfo_cmd] *)
(* ===================================================================== *)

(** [@commands.cooldown(1, 3, commands.BucketType.user)]: the values the
    decorator passes. Times are in milliseconds, the unit of message
    timestamps. *)
Inductive BucketType : Type := BucketDefault | BucketUser | BucketGuild | BucketChannel.

Record cooldown_policy : Type :=
  { cd_rate : Z; cd_per : Z; cd_type : BucketType }.

Definition ipinfo_cooldown : cooldown_policy :=
  {| cd_rate := 1; cd_per := 3 * 1000; cd_type := BucketUser |}.

(** Modelled from the spec: the platform's cooldown mechanism that the
    decorator selects (its code is the chat library's, not the program's).
    One bucket per key holds the tokens left in the current window; a window
    opens with the first token taken and lasts [cd_per]; an invocation that
    finds no token is refused with the time left to wait. *)
Record Cooldown : Type :=
  { cd_window : Z;   (* start of the current window *)
    cd_tokens : Z;   (* tokens left in it *)
    cd_last : Z      (* time of the last invocation seen *) }.

Definition fresh_bucket (p : cooldown_policy) : Cooldown :=
  {| cd_window := 0; cd_tokens := cd_rate p; cd_last := 0 |}.

Definition get_tokens (p : cooldown_policy) (b : Cooldown) (current : Z) : Z :=
  if current >? cd_window b + cd_per p then cd_rate p else cd_tokens b.

(** The bucket after an invocation at [current], and the time left to wait
    when the invocation is refused. *)
Definition update_rate_limit (p : cooldown_policy) (b : Cooldown) (current : Z)
  : Cooldown * option Z :=
  let tokens := get_tokens p b current in
  let window := if tokens =? cd_rate p then current else cd_window b in
  if tokens =? 0
  then ({| cd_window := window; cd_tokens := tokens; cd_last := current |},
        Some (cd_per p - (current - window)))
  else ({| cd_window := window; cd_tokens := tokens - 1; cd_last := current |}, None).

(** The buckets of a command, by user id. Buckets not touched for longer
    than the period are dropped before each lookup. *)
Definition verify_cache_integrity (p : cooldown_policy) (cache : gmap Z Cooldown)
           (current : Z) : gmap Z Cooldown :=
  base.filter (fun kv : Z * Cooldown => (current >? cd_last (snd kv) + cd_per p) = false)
              cache.

Definition get_bucket (p : cooldown_policy) (cache : gmap Z Cooldown) (user current : Z)
  : gmap Z Cooldown * Cooldown :=
  let cache := verify_cache_integrity p cache current in
  match cache !! user with
  | Some b => (cache, b)
  | None => (<[user := fresh_bucket p]> cache, fresh_bucket p)
  end.

(** Errors the framework raises instead of, or around, a handler. *)
Inductive command_error : Type :=
| CommandOnCooldown (retry_after : Z)
| MissingRequiredArgument (param : pystr)
| CommandInvokeError (e : exn).

(** Cooldown check of one invocation: the new buckets, and the refusal if
    there is one. A wait of zero is no refusal. *)
Definition prepare_cooldowns (p : cooldown_policy) (cache : gmap Z Cooldown)
           (user current : Z) : gmap Z Cooldown * option command_error :=
  let (cache, b) := get_bucket p cache user current in
  let (b', retry_after) := update_rate_limit p b current in
  (<[user := b']> cache,
   match retry_after with
   | Some r => if r =? 0 then None else Some (CommandOnCooldown r)
   | None => None
   end).

Section Framework.
Variable isprintable : N -> bool.
Variable ipinfo_token : pyval.
Variable net : pystr -> pydict -> http_outcome.

(** One invocation [<prefix>ipinfo args...] by [user] at time [current]:
    the cooldown is checked first, then the required parameter [target] is
    bound to the first argument, then the handler runs. Further arguments
    are ignored. *)
Definition invoke_ipinfo (cache : gmap Z Cooldown) (user current : Z)
           (args : list pystr)
  : gmap Z Cooldown * list event * option command_error :=
  match prepare_cooldowns ipinfo_cooldown cache user current with
  | (cache', Some err) => (cache', [], Some err)
  | (cache', None) =>
    match args with
    | [] => (cache', [], Some (MissingRequiredArgument (lit "target")))
    | target :: _ =>
      match ipinfo_cmd isprintable ipinfo_token net target with
      | (tr, Ok _) => (cache', tr, None)
      | (tr, Raise e) => (cache', tr, Some (CommandInvokeError e))
      end
    end
  end.
End Framework.

(* ===================================================================== *)
(** * Start-up *)
(* ===================================================================== *)

Inductive startup_event : Type :=
| LogInfo (msg : pystr)
| LogWarning (msg : pystr)
| LogError (msg : pystr)
| BotCreated (prefix : pyval)
| CommandRegistered (name : pystr)
| ListenerRegistered (name : pystr)
| BotRun (token : pyval).

(** How the module ends: it runs the bot, exits with a status, or dies of an
    uncaught exception (which also gives a non-zero status). *)
Inductive startup_end : Type :=
| Running
| SystemExit (status : Z)
| Uncaught (e : exn).

(** [os.getenv(name)] as a value: the string or [None]. *)
Definition getenv (env : pystr -> option pystr) (name : pystr) : pyval :=
  match env name with
  | Some s => PStr s
  | None => PNone
  end.

(** [config.get("BOT_CONFIG", {}).get(key)] *)
Definition config_value (config : pyval) (key : pystr) : result pyval :=
  (section <- py_get config (lit "BOT_CONFIG") (PDict []) ;;
   py_get section key PNone)%result.

(** [config.get("BOT_CONFIG", {}).get(key) or os.getenv(a) or <last>] *)
Definition resolve (config : pyval) (env : pystr -> option pystr)
           (key a : pystr) (last : pyval) : result pyval :=
  (v <- config_value config key ;;
   Ok (py_or (py_or v (getenv env a)) last))%result.

Definition resolve_bot_token (config : pyval) (env : pystr -> option pystr) : result pyval :=
  resolve config env (lit "TOKEN") (lit "BOT_TOKEN") (getenv env (lit "DISCORD_TOKEN")).

Definition resolve_prefix (config : pyval) (env : pystr -> option pystr) : result pyval :=
  resolve config env (lit "PREFIX") (lit "BOT_PREFIX") (PStr (lit "!")).

Definition resolve_ipinfo_token (config : pyval) (env : pystr -> option pystr) : result pyval :=
  resolve config env (lit "IPINFO_TOKEN") (lit "IPINFO_TOKEN")
          (getenv env (lit "IPINFO_IO_TOKEN")).

(** The configuration file: absent, unreadable, or loaded. *)
Inductive config_file : Type :=
| FileAbsent
| FileBroken (e : exn)
| FileLoaded (v : pyval).

(** Lines 18 to 26: the configuration and the log lines of loading it. *)
Definition load_config (settings_path : pystr) (f : config_file)
  : pyval * list startup_event :=
  match f with
  | FileAbsent =>
    (PDict [], [LogInfo (lit "Config file not found at " ++ settings_path
                             ++ lit " — will fall back to environment variables")])
  | FileBroken e =>
    (PDict [], [LogWarning (lit "Failed to parse config.yml: " ++ exn_text e)])
  | FileLoaded v => (py_or v (PDict []), [])
  end.

Definition no_token_msg : pystr :=
  lit "No Discord bot token found. Set it in data/settings/config.yml or in BOT_TOKEN env var.".

Definition no_ipinfo_token_msg : pystr :=
  lit "No ipinfo.io token provided. Some endpoints may be rate-limited or restricted.".

(** The module body from top to bottom, run as a script. *)
Definition startup (settings_path : pystr) (f : config_file)
           (env : pystr -> option pystr)
  : list startup_event * startup_end :=
  let (config, log) := load_config settings_path f in
  match resolve_bot_token config env with
  | Raise e => (log, Uncaught e)
  | Ok bot_token =>
    match resolve_prefix config env with
    | Raise e => (log, Uncaught e)
    | Ok prefix =>
      match resolve_ipinfo_token config env with
      | Raise e => (log, Uncaught e)
      | Ok ipinfo_token =>
        if negb (truthy bot_token)
        then (log ++ [LogError no_token_msg], SystemExit 1)
        else
          (log
             ++ (if negb (truthy ipinfo_token) then [LogWarning no_ipinfo_token_msg] else [])
             ++ [BotCreated prefix;
                 CommandRegistered (lit "help");
                 CommandRegistered (lit "ipinfo");
                 ListenerRegistered (lit "on_ready");
                 BotRun bot_token],
           Running)
      end
    end
  end.

(* ===================================================================== *)
(** * Notions used to state the properties *)
(* ===================================================================== *)

(** The card in the words of the specification: display entries, then an
    optional map block, then an optional raw-payload block. *)

(** A field is present and non-empty: the result stores under its key a
    value that Python's truth test accepts. *)
Definition field_set (data : pydict) (key : pystr) : bool :=
  match dict_get data key with
  | Some v => truthy v
  | None => false
  end.

Definition display_entry (isprintable : N -> bool) (data : pydict)
           (lk : pystr * pystr) : list EmbedField :=
  match dict_get data (snd lk) with
  | Some v =>
    if truthy v
    then [{| field_name := fst lk; field_value := py_str isprintable v;
             field_inline := true |}]
    else []
  | None => []
  end.

(** One entry per field of [FIELDS] that is set, in the order of [FIELDS]. *)
Definition expected_entries (isprintable : N -> bool) (data : pydict) : list EmbedField :=
  flat_map (display_entry isprintable data) FIELDS.

Definition is_display_label (name : pystr) : bool :=
  existsb (pystr_eqb name) (List.map fst FIELDS).

(** The display entries of a card: its fields that carry a display label. *)
Definition display_entries (e : Embed) : list EmbedField :=
  List.filter (fun f => is_display_label (field_name f)) (embed_fields e).

(** Number of fields of a card with a given name. *)
Definition count_named (name : pystr) (e : Embed) : nat :=
  List.length (List.filter (fun f => pystr_eqb (field_name f) name) (embed_fields e)).

Definition has_field (name : pystr) (e : Embed) : bool :=
  existsb (fun f => pystr_eqb (field_name f) name) (embed_fields e).

(** The two pieces of [loc] when it is a string that holds exactly one
    comma. *)
Definition loc_components (data : pydict) : option (pystr * pystr) :=
  match dict_get data (lit "loc") with
  | Some (PStr s) =>
    match split_comma s with
    | [lat; lon] => Some (lat, lon)
    | _ => None
    end
  | _ => None
  end.

Definition map_fields (data : pydict) : list EmbedField :=
  match loc_components data with
  | Some (lat, lon) =>
    [{| field_name := lit "Map"; field_value := map_value lat lon;
        field_inline := false |}]
  | None => []
  end.

Definition raw_fields (data : pydict) : list EmbedField :=
  if py_len (json_dumps (PDict data)) <? 1024
  then [{| field_name := lit "Raw JSON";
           field_value := raw_value (json_dumps (PDict data));
           field_inline := false |}]
  else [].

(** A numeric component in the sense of the specification: a decimal number,
    that is an optional sign, digits, and an optional fraction part. *)
Definition all_digits (s : pystr) : bool :=
  match s with
  | [] => false
  | _ => forallb is_digit s
  end.

Definition unsigned_decimal (s : pystr) : bool :=
  let (int_part, rest) := span_digits s in
  match rest with
  | [] => all_digits int_part
  | c :: frac =>
    (c =? 46)%N && forallb is_digit frac
    && negb (Nat.eqb (List.length int_part + List.length frac) 0)
  end.

Definition numeric_component (s : pystr) : bool :=
  match s with
  | c :: r => if (c =? 45)%N || (c =? 43)%N then unsigned_decimal r else unsigned_decimal s
  | [] => false
  end.

(** [loc] is present and parses as exactly two comma-separated numbers. *)
Definition loc_two_numbers (data : pydict) : bool :=
  match loc_components data with
  | Some (lat, lon) => numeric_component lat && numeric_component lon
  | None => false
  end.

(** Boolean test of pairwise distinctness. *)
Fixpoint distinctb (l : list pystr) : bool :=
  match l with
  | [] => true
  | x :: r => negb (existsb (pystr_eqb x) r) && distinctb r
  end.

(** The request of a lookup of [target]. *)
Definition lookup_url (target : pystr) : pystr :=
  lit "https://ipinfo.io/" ++ target ++ lit "/json".

Definition lookup_params (ipinfo_token : pyval) : pydict :=
  if truthy ipinfo_token then [(lit "token", ipinfo_token)] else [].

(** A lookup that succeeds with the mapping [d]: status 200 and a body that
    parses to [d]. *)
Definition fetched (net : pystr -> pydict -> http_outcome) (ipinfo_token : pyval)
           (target : pystr) (d : pydict) : Prop :=
  exists text,
    net (lookup_url target) (lookup_params ipinfo_token)
    = Responded {| resp_status := 200; resp_text := text; resp_json := Ok (PDict d) |}.

Definition is_http_get (ev : event) : bool :=
  match ev with HttpGet _ _ _ => true | _ => false end.

Definition is_render (ev : event) : bool :=
  match ev with Render _ _ => true | _ => false end.

(** Number of remote calls in a trace. *)
Definition http_calls (tr : list event) : nat := List.length (List.filter is_http_get tr).

(** Number of calls of the presenter in a trace. *)
Definition render_calls (tr : list event) : nat := List.length (List.filter is_render tr).

(** A network that answers every request with status 200 and the given
    value as parsed body. *)
Definition answers (body : pyval) : pystr -> pydict -> http_outcome :=
  fun _ _ => Responded {| resp_status := 200; resp_text := json_dumps body;
                          resp_json := Ok body |}.

(** A result whose organisation name alone is longer than the ceiling of a
    card. *)
Definition long_org_result : pydict :=
  [(lit "ip", PStr (lit "1.1.1.1"));
   (lit "org", PStr (repeat 97%N (N.to_nat 6100)));
   (lit "raw", PStr (lit "x"))].

Definition long_org_no_raw : pydict :=
  [(lit "ip", PStr (lit "1.1.1.1"));
   (lit "org", PStr (repeat 97%N (N.to_nat 6100)))].

(** The first candidate that is present, in the order given. *)
Definition first_present (candidates : list pyval) : option pyval :=
  List.find truthy candidates.

(** Events of a start-up that has gone past the credential check. *)
Definition is_registration (ev : startup_event) : bool :=
  match ev with
  | BotCreated _ | CommandRegistered _ | ListenerRegistered _ | BotRun _ => true
  | _ => false
  end.

(** The user has no window running at time [t]: no bucket, or a bucket whose
    window ended before [t]. *)
Definition window_over (cache : gmap Z Cooldown) (user t : Z) : Prop :=
  match cache !! user with
  | Some b => cd_window b + cd_per ipinfo_cooldown < t
  | None => True
  end.

(** Where a number may end: at the end of the text or before a character
    that continues neither the digits nor a fraction or exponent. *)
Definition number_end (rest : pystr) : Prop :=
  match rest with
  | [] => True
  | c :: _ => is_digit c = false /\ c <> 46%N /\ c <> 101%N /\ c <> 69%N
  end.

(** Where a value may start: at a character that is no white space and
    closes neither an array nor an object. *)
Definition value_start (s : pystr) : Prop :=
  match s with
  | [] => False
  | c :: _ => is_ws c = false /\ c <> 93%N /\ c <> 125%N
  end.

(** The reader gets the value back from its dump at any nesting depth,
    whatever follows, given fuel for the length of the dump. *)
Definition reads_back (v : pyval) : Prop :=
  forall (fuel level : nat) (rest : pystr),
    (List.length (dumps_at level v) <= fuel)%nat ->
    number_end rest ->
    parse_value fuel (dumps_at level v ++ rest) = Some (v, rest).

(** Text of one member of an object at nesting depth [lv]. *)
Definition member_text (lv : nat) (kv : pystr * pyval) : pystr :=
  encode_basestring (fst kv) ++ lit ": " ++ dumps_at lv (snd kv).

(** Separator between the items of a container at nesting depth [lv]. *)
Definition item_separator (lv : nat) : pystr := lit "," ++ newline_indent lv.

(** Characters the fields of a card add to [len(embed)]. *)
Definition fields_len (fs : list EmbedField) : Z :=
  fold_right (fun f acc => py_len (field_name f) + py_len (field_value f) + acc) 0 fs.

Definition is_reply (ev : event) : bool :=
  match ev with Send _ | SendEmbed _ => true | _ => false end.

(** Number of messages a trace sends to the channel. *)
Definition replies (tr : list event) : nat := List.length (List.filter is_reply tr).

(** [len] of the card the presenter builds. *)
Definition card_len (isprintable : N -> bool) (t : pystr) (data : pydict) : Z :=
  match make_embed_from_data isprintable t data with
  | Ok card => embed_len card
  | Raise _ => 0
  end.

(** A result whose organisation name makes the card far longer than the
    ceiling, and which has an item stored under the key "raw". *)
Definition huge_org_result : pydict :=
  [(lit "ip", PStr (lit "1.1.1.1"));
   (lit "org", PStr (repeat 97%N (N.to_nat 8000)));
   (lit "raw", PStr (lit "x"))].

(** What the configuration file gives for a key of its bot section: [None]
    (Python's) where the file is missing, unreadable or empty, or has no bot
    section or not that key; no value at all where the document, or the bot
    section, is not a mapping. *)
Definition file_value (f : config_file) (key : pystr) : option pyval :=
  match f with
  | FileAbsent | FileBroken _ => Some PNone
  | FileLoaded v =>
    if truthy v then
      match v with
      | PDict c =>
        match dict_get c (lit "BOT_CONFIG") with
        | None => Some PNone
        | Some (PDict s) => Some (dict_get_none s key)
        | Some _ => None
        end
      | _ => None
      end
    else Some PNone
  end.

(* ===================================================================== *)
(** * Properties *)
(* ===================================================================== *)

(** ** Text and dicts *)

(** Replace the literals of the goal by the code points they denote. *)
Ltac eval_lits :=
  repeat match goal with
         | |- context [lit ?s] =>
           let v := eval vm_compute in (lit s) in
           change (lit s) with v
         end.

Lemma pystr_eqb_eq (a b : pystr) : pystr_eqb a b = true <-> a = b.
Proof.
  unfold pystr_eqb. destruct (list_eq_dec N.eq_dec a b); split; congruence.
Qed.

Lemma pystr_eqb_refl (a : pystr) : pystr_eqb a a = true.
Proof. now apply pystr_eqb_eq. Qed.

Lemma pystr_eqb_neq (a b : pystr) : pystr_eqb a b = false <-> a <> b.
Proof.
  unfold pystr_eqb. destruct (list_eq_dec N.eq_dec a b); split; congruence.
Qed.

Lemma dict_get_in_keys (d : pydict) (k : pystr) (v : pyval) :
  dict_get d k = Some v -> In k (dict_keys d).
Proof.
  induction d as [|[k' v'] d IH]; simpl; [discriminate|].
  destruct (pystr_eqb k' k) eqn:E.
  - intros _. left. now apply pystr_eqb_eq.
  - intros H. right. now apply IH.
Qed.

Lemma dict_get_not_in (d : pydict) (k : pystr) :
  ~ In k (dict_keys d) -> dict_get d k = None.
Proof.
  intros H. destruct (dict_get d k) eqn:E; [|reflexivity].
  exfalso. apply H. eapply dict_get_in_keys; eauto.
Qed.

(** Over distinct keys the comprehension keeps every item but the one
    stored under ["raw"]. *)
Lemma drop_raw_filter (data : pydict) :
  dict_ok data ->
  drop_raw data = List.filter (fun kv => negb (pystr_eqb (fst kv) (lit "raw"))) data.
Proof.
  unfold drop_raw, dict_ok, dict_keys.
  assert (G : forall (whole part : pydict),
             NoDup (List.map fst part) ->
             (forall k v, In (k, v) part -> dict_get whole k = Some v) ->
             flat_map (fun k => if pystr_eqb k (lit "raw") then []
                                else match dict_get whole k with
                                     | Some v => [(k, v)]
                                     | None => []
                                     end) (List.map fst part)
             = List.filter (fun kv => negb (pystr_eqb (fst kv) (lit "raw"))) part).
  { intros whole part. induction part as [|[k v] part IH]; simpl; intros ND Hget.
    - reflexivity.
    - inversion ND; subst.
      rewrite IH by (auto; intros; apply Hget; now right).
      destruct (pystr_eqb k (lit "raw")); simpl; [reflexivity|].
      rewrite (Hget k v) by now left. reflexivity. }
  intros ND. apply G; [assumption|].
  clear G. induction data as [|[k' v'] data IH]; simpl; intros k v Hin; [contradiction|].
  inversion ND; subst.
  destruct Hin as [Heq|Hin].
  - inversion Heq; subst. now rewrite pystr_eqb_refl.
  - destruct (pystr_eqb k' k) eqn:E.
    + apply pystr_eqb_eq in E. subst k'. exfalso. apply H1.
      change k with (fst (k, v)). now apply in_map.
    + now apply IH.
Qed.

Lemma filter_id {A} (f : A -> bool) (l : list A) :
  (forall x, In x l -> f x = true) -> List.filter f l = l.
Proof.
  induction l as [|x l IH]; simpl; intros H; [reflexivity|].
  rewrite (H x) by now left. f_equal. apply IH. intros; apply H; now right.
Qed.

Lemma drop_raw_absent (data : pydict) :
  dict_ok data -> ~ In (lit "raw") (dict_keys data) -> drop_raw data = data.
Proof.
  intros ND Hno. rewrite drop_raw_filter by assumption.
  apply filter_id. intros [k v] Hin. simpl.
  destruct (pystr_eqb k (lit "raw")) eqn:E; [|reflexivity].
  apply pystr_eqb_eq in E. subst k. exfalso. apply Hno.
  change (lit "raw") with (fst (lit "raw", v)). now apply in_map.
Qed.

(** ** The presenter *)

Lemma fold_add_if_set (isprintable : N -> bool) (data : pydict)
      (L : list (pystr * pystr)) (e : Embed) :
  fold_left (add_if_set isprintable)
            (List.map (fun lk => (fst lk, dict_get_none data (snd lk))) L) e
  = {| embed_title := embed_title e; embed_color := embed_color e;
       embed_fields := embed_fields e ++ flat_map (display_entry isprintable data) L;
       embed_footer := embed_footer e |}.
Proof.
  revert e. induction L as [|[label key] L IH]; intros e; simpl.
  - rewrite app_nil_r. now destruct e.
  - rewrite IH. unfold add_if_set, display_entry, dict_get_none. simpl.
    destruct (dict_get data key) as [v|]; simpl.
    + destruct (truthy v); simpl; [|reflexivity].
      now rewrite <- app_assoc.
    + reflexivity.
Qed.

(** What the try block around the map field leaves behind. *)
Lemma map_field_step (embed : Embed) (data : pydict) :
  (if truthy (dict_get_none data (lit "loc"))
   then try_except (add_map_field embed (dict_get_none data (lit "loc")))
                   is_Exception (fun _ => Ok embed)
   else Ok embed)
  = Ok {| embed_title := embed_title embed; embed_color := embed_color embed;
          embed_fields := embed_fields embed ++ map_fields data;
          embed_footer := embed_footer embed |}.
Proof.
  assert (Same : Ok embed
                 = Ok {| embed_title := embed_title embed; embed_color := embed_color embed;
                         embed_fields := embed_fields embed ++ [];
                         embed_footer := embed_footer embed |}).
  { rewrite app_nil_r. now destruct embed. }
  unfold map_fields, loc_components, dict_get_none.
  destruct (dict_get data (lit "loc")) as [v|]; [|exact Same].
  destruct v as [ |b|z|s|xs|kvs].
  - exact Same.
  - cbn [truthy]. destruct b; exact Same.
  - cbn [truthy]. destruct (negb (z =? 0)); exact Same.
  - destruct s as [|c s]; [exact Same|].
    cbn [truthy]. unfold add_map_field. cbn [py_split_comma rbind].
    destruct (split_comma (c :: s)) as [|a [|b [|x l]]]; simpl; try exact Same.
    reflexivity.
  - destruct xs; exact Same.
  - destruct kvs; exact Same.
Qed.

(** The card, field by field. *)
Lemma make_embed_shape (isprintable : N -> bool) (t : pystr) (data : pydict) :
  make_embed_from_data isprintable t data
  = Ok {| embed_title := lit "IP info — " ++ t;
          embed_color := blurple;
          embed_fields := expected_entries isprintable data
                            ++ map_fields data ++ raw_fields data;
          embed_footer := Some (lit "Data provided by ipinfo.io") |}.
Proof.
  unfold make_embed_from_data.
  rewrite fold_add_if_set, map_field_step.
  cbn [rbind embed_title embed_color embed_fields embed_footer new_embed app].
  unfold raw_fields, expected_entries.
  destruct (py_len (json_dumps (PDict data)) <? 1024).
  - unfold set_footer, add_field; cbn [embed_title embed_color embed_fields embed_footer].
    now rewrite <- app_assoc.
  - unfold set_footer; cbn [embed_title embed_color embed_fields embed_footer].
    now rewrite app_nil_r.
Qed.
Lemma distinctb_NoDup (l : list pystr) : distinctb l = true -> NoDup l.
Proof.
  induction l as [|x l IH]; simpl; intros H; [constructor|].
  apply andb_true_iff in H. destruct H as [Hx Hl].
  constructor; [|now apply IH].
  intros Hin. apply negb_true_iff in Hx.
  assert (existsb (pystr_eqb x) l = true); [|congruence].
  apply existsb_exists. exists x. split; [assumption|apply pystr_eqb_refl].
Qed.

Lemma FIELDS_labels_distinct : NoDup (List.map fst FIELDS).
Proof. apply distinctb_NoDup. vm_compute. reflexivity. Qed.

Lemma entry_labels (isprintable : N -> bool) (data : pydict) (L : list (pystr * pystr)) f :
  In f (flat_map (display_entry isprintable data) L) -> In (field_name f) (List.map fst L).
Proof.
  induction L as [|[l k] L IH]; simpl; [tauto|].
  rewrite in_app_iff. intros [H|H]; [left|right; auto].
  unfold display_entry in H. simpl in H.
  destruct (dict_get data k) as [v|]; [|contradiction].
  destruct (truthy v); [|contradiction].
  destruct H as [<-|[]]. reflexivity.
Qed.

Lemma count_absent_label (isprintable : N -> bool) (data : pydict)
      (L : list (pystr * pystr)) (label : pystr) :
  ~ In label (List.map fst L) ->
  List.filter (fun f => pystr_eqb (field_name f) label)
              (flat_map (display_entry isprintable data) L) = [].
Proof.
  intros Hno.
  destruct (List.filter _ _) as [|f fs] eqn:E; [reflexivity|].
  exfalso. assert (Hin : In f (f :: fs)) by now left.
  rewrite <- E in Hin. apply filter_In in Hin. destruct Hin as [Hin Hname].
  apply pystr_eqb_eq in Hname. subst label.
  apply Hno. eapply entry_labels; eauto.
Qed.

Lemma count_entries (isprintable : N -> bool) (data : pydict)
      (L : list (pystr * pystr)) (label key : pystr) :
  NoDup (List.map fst L) -> In (label, key) L ->
  List.length (List.filter (fun f => pystr_eqb (field_name f) label)
                           (flat_map (display_entry isprintable data) L))
  = if field_set data key then 1%nat else 0%nat.
Proof.
  induction L as [|[l k] L IH]; simpl; intros ND Hin; [contradiction|].
  inversion ND as [|? ? Hnotin ND']; subst.
  rewrite filter_app, length_app.
  destruct Hin as [Heq|Hin].
  - inversion Heq; subst l k.
    rewrite (count_absent_label isprintable data L label Hnotin). simpl.
    unfold display_entry, field_set. simpl.
    destruct (dict_get data key) as [v|]; [|reflexivity].
    destruct (truthy v); [|reflexivity].
    simpl. now rewrite pystr_eqb_refl.
  - rewrite (IH ND' Hin).
    assert (Hne : pystr_eqb l label = false).
    { apply pystr_eqb_neq. intros ->. apply Hnotin.
      change label with (fst (label, key)). now apply in_map. }
    unfold display_entry. simpl.
    destruct (dict_get data k) as [v|]; [|reflexivity].
    destruct (truthy v); [|reflexivity].
    simpl. now rewrite Hne.
Qed.

Lemma expected_entries_names (isprintable : N -> bool) (data : pydict) :
  List.map field_name (expected_entries isprintable data)
  = List.map fst (List.filter (fun lk => field_set data (snd lk)) FIELDS).
Proof.
  unfold expected_entries. induction FIELDS as [|[l k] L IH]; simpl; [reflexivity|].
  rewrite map_app, IH. unfold display_entry, field_set. simpl.
  destruct (dict_get data k) as [v|]; [|reflexivity].
  destruct (truthy v); reflexivity.
Qed.

Lemma expected_entries_display (isprintable : N -> bool) (data : pydict) :
  List.filter (fun f => is_display_label (field_name f)) (expected_entries isprintable data)
  = expected_entries isprintable data.
Proof.
  apply filter_id. intros f Hin. unfold is_display_label.
  apply existsb_exists. exists (field_name f). split; [|apply pystr_eqb_refl].
  eapply entry_labels; eauto.
Qed.

(** The map block and the raw-payload block carry no display label. *)
Lemma blocks_not_display (data : pydict) :
  List.filter (fun f => is_display_label (field_name f)) (map_fields data ++ raw_fields data)
  = [].
Proof.
  unfold map_fields, raw_fields.
  destruct (loc_components data) as [[lat lon]|];
    destruct (py_len (json_dumps (PDict data)) <? 1024); reflexivity.
Qed.

Lemma blocks_not_named (data : pydict) (label : pystr) :
  is_display_label label = true ->
  List.filter (fun f => pystr_eqb (field_name f) label) (map_fields data ++ raw_fields data)
  = [].
Proof.
  intros Hl.
  assert (HM : pystr_eqb (lit "Map") label = false).
  { apply pystr_eqb_neq. intros <-. vm_compute in Hl. discriminate. }
  assert (HR : pystr_eqb (lit "Raw JSON") label = false).
  { apply pystr_eqb_neq. intros <-. vm_compute in Hl. discriminate. }
  unfold map_fields, raw_fields.
  destruct (loc_components data) as [[lat lon]|];
    destruct (py_len (json_dumps (PDict data)) <? 1024);
    cbn [app List.filter field_name]; rewrite ?HM, ?HR; reflexivity.
Qed.

(** C1. For every target and every result mapping the presenter returns a
    card whose display entries are exactly one entry per field of the fixed
    list (ip, hostname, city, region, country, loc, org, postal, timezone)
    that is present and non-empty in the result, in the order of that list,
    each showing [str] of the field's value; a field that is empty or absent
    has no entry. *)
Theorem C1_display_entries (isprintable : N -> bool) (t : pystr) (data : pydict) :
  exists card,
    make_embed_from_data isprintable t data = Ok card /\
    display_entries card = expected_entries isprintable data /\
    List.map field_name (display_entries card)
    = List.map fst (List.filter (fun lk => field_set data (snd lk)) FIELDS) /\
    (forall label key, In (label, key) FIELDS ->
       count_named label card = if field_set data key then 1%nat else 0%nat).
Proof.
  eexists. split; [apply make_embed_shape|].
  assert (D : display_entries
                {| embed_title := lit "IP info — " ++ t; embed_color := blurple;
                   embed_fields := expected_entries isprintable data
                                     ++ map_fields data ++ raw_fields data;
                   embed_footer := Some (lit "Data provided by ipinfo.io") |}
              = expected_entries isprintable data).
  { unfold display_entries. cbn [embed_fields].
    rewrite filter_app, expected_entries_display, blocks_not_display.
    apply app_nil_r. }
  split; [exact D|]. split.
  - rewrite D. apply expected_entries_names.
  - intros label key Hin. unfold count_named. cbn [embed_fields].
    rewrite filter_app, length_app, blocks_not_named.
    + rewrite Nat.add_0_r. apply count_entries; [apply FIELDS_labels_distinct|assumption].
    + unfold is_display_label. apply existsb_exists. exists label.
      split; [|apply pystr_eqb_refl].
      change label with (fst (label, key)). now apply in_map.
Qed.

(** ** The map block *)

Lemma split_comma_nonempty (s : pystr) : split_comma s <> [].
Proof.
  destruct s as [|c s]; simpl; [discriminate|].
  destruct (c =? 44)%N; [discriminate|].
  destruct (split_comma s); discriminate.
Qed.

(** A string without a comma is one piece. *)
Lemma split_comma_one (s : pystr) : ~ In 44%N s -> split_comma s = [s].
Proof.
  induction s as [|c s IH]; simpl; intros H; [reflexivity|].
  destruct (c =? 44)%N eqn:E.
  - apply N.eqb_eq in E. exfalso. apply H. now left.
  - rewrite IH by tauto. reflexivity.
Qed.

Lemma split_comma_single (s p : pystr) : split_comma s = [p] -> s = p /\ ~ In 44%N s.
Proof.
  revert p. induction s as [|c s IH]; simpl; intros p H.
  - inversion H. auto.
  - destruct (c =? 44)%N eqn:E.
    + inversion H as [[Hp Hs]]. exfalso. now apply (split_comma_nonempty s).
    + destruct (split_comma s) as [|q qs] eqn:Es.
      * exfalso. now apply (split_comma_nonempty s).
      * inversion H; subst. destruct (IH q eq_refl) as [-> Hno].
        split; [reflexivity|]. intros [->|Hin]; [discriminate|auto].
Qed.

(** [split(",")] gives exactly two pieces when the string is two comma-free
    pieces around one comma. *)
Lemma split_comma_two (s a b : pystr) :
  split_comma s = [a; b] <-> s = a ++ 44%N :: b /\ ~ In 44%N a /\ ~ In 44%N b.
Proof.
  split.
  - revert a. induction s as [|c s IH]; simpl; intros a H; [discriminate|].
    destruct (c =? 44)%N eqn:E.
    + apply N.eqb_eq in E. subst c. inversion H as [[Ha Hs]].
      apply split_comma_single in Hs. destruct Hs as [-> Hno].
      simpl. tauto.
    + destruct (split_comma s) as [|q qs] eqn:Es; [discriminate|].
      inversion H; subst.
      destruct (IH q eq_refl) as [-> [Ha Hb]].
      split; [reflexivity|]. split; [|assumption].
      intros [->|Hin]; [discriminate|auto].
  - intros [-> [Ha Hb]]. induction a as [|c a IH]; simpl.
    + now rewrite split_comma_one.
    + destruct (c =? 44)%N eqn:E.
      * apply N.eqb_eq in E. exfalso. apply Ha. now left.
      * rewrite IH by (simpl in Ha; tauto). reflexivity.
Qed.

Lemma map_value_text (lat lon : pystr) :
  map_value lat lon
  = lit "[OpenStreetMap](https://www.openstreetmap.org/?mlat=" ++ lat
        ++ lit "&mlon=" ++ lon ++ lit "#map=8/" ++ lat ++ lit "/" ++ lon
        ++ lit ") | [Google Maps](https://www.google.com/maps?q=" ++ lat
        ++ lit "," ++ lon ++ lit ")".
Proof.
  unfold map_value, osm_link, google_link.
  rewrite <- !app_assoc. eval_lits. reflexivity.
Qed.

Lemma has_map_field (isprintable : N -> bool) (data : pydict) :
  existsb (fun f => pystr_eqb (field_name f) (lit "Map"))
          (expected_entries isprintable data ++ map_fields data ++ raw_fields data)
  = match loc_components data with Some _ => true | None => false end.
Proof.
  rewrite existsb_app.
  assert (E : existsb (fun f => pystr_eqb (field_name f) (lit "Map"))
                      (expected_entries isprintable data) = false).
  { destruct (existsb _ _) eqn:X; [|reflexivity].
    apply existsb_exists in X. destruct X as [f [Hin Hname]].
    apply pystr_eqb_eq in Hname.
    apply entry_labels in Hin. rewrite Hname in Hin.
    exfalso. vm_compute in Hin. intuition discriminate. }
  rewrite E. unfold map_fields, raw_fields.
  destruct (loc_components data) as [[lat lon]|];
    destruct (py_len (json_dumps (PDict data)) <? 1024); reflexivity.
Qed.

(** C3, as the code has it. For every target and result mapping the
    presenter returns a card (no exception leaves it), and the card holds a
    map block if and only if [loc] is a string made of exactly two pieces
    around one comma; the pieces are not checked to be numbers. The block is
    then the single field named Map, whose value links to OpenStreetMap at
    zoom level 8 and to the generic web map, both with the two pieces
    substituted. In particular a [loc] of two comma-separated numbers gets
    its map block, and a [loc] without a comma gets none. *)
Theorem C3_map_block (isprintable : N -> bool) (t : pystr) (data : pydict) :
  exists card,
    make_embed_from_data isprintable t data = Ok card /\
    (has_field (lit "Map") card = true <->
     exists lat lon, dict_get data (lit "loc") = Some (PStr (lat ++ 44%N :: lon))
                     /\ ~ In 44%N lat /\ ~ In 44%N lon) /\
    (forall lat lon,
        dict_get data (lit "loc") = Some (PStr (lat ++ 44%N :: lon)) ->
        ~ In 44%N lat -> ~ In 44%N lon ->
        List.filter (fun f => pystr_eqb (field_name f) (lit "Map")) (embed_fields card)
        = [{| field_name := lit "Map";
              field_value :=
                lit "[OpenStreetMap](https://www.openstreetmap.org/?mlat=" ++ lat
                    ++ lit "&mlon=" ++ lon ++ lit "#map=8/" ++ lat ++ lit "/" ++ lon
                    ++ lit ") | [Google Maps](https://www.google.com/maps?q=" ++ lat
                    ++ lit "," ++ lon ++ lit ")";
              field_inline := false |}]) /\
    (loc_two_numbers data = true -> has_field (lit "Map") card = true).
Proof.
  eexists. split; [apply make_embed_shape|].
  unfold has_field. cbn [embed_fields]. rewrite has_map_field.
  split; [|split].
  - unfold loc_components. split.
    + destruct (dict_get data (lit "loc")) as [[ | | |s| | ]|]; try discriminate.
      destruct (split_comma s) as [|a [|b [|x l]]] eqn:E; try discriminate.
      intros _. apply split_comma_two in E. destruct E as [-> [Ha Hb]].
      exists a, b. auto.
    + intros [lat [lon [-> [Ha Hb]]]].
      now rewrite (proj2 (split_comma_two _ lat lon)).
  - intros lat lon Hloc Ha Hb.
    rewrite !filter_app. unfold expected_entries.
    rewrite (count_absent_label isprintable data FIELDS (lit "Map"))
      by (vm_compute; intuition discriminate).
    unfold map_fields, raw_fields, loc_components. rewrite Hloc.
    rewrite (proj2 (split_comma_two _ lat lon)) by auto.
    rewrite <- map_value_text.
    destruct (py_len (json_dumps (PDict data)) <? 1024); reflexivity.
  - unfold loc_two_numbers. destruct (loc_components data); [reflexivity|discriminate].
Qed.

(** ** The handler *)

Section HandlerFacts.
Variable isprintable : N -> bool.
Variable ipinfo_token : pyval.
Variable net : pystr -> pydict -> http_outcome.

Let cmd := ipinfo_cmd isprintable ipinfo_token net.

Lemma fetch_ipinfo_request (target : pystr) :
  fetch_ipinfo ipinfo_token net target
  = ([HttpGet (lookup_url target) (lookup_params ipinfo_token) 10],
     match net (lookup_url target) (lookup_params ipinfo_token) with
     | Failed e => Raise e
     | Responded resp =>
       if negb (resp_status resp =? 200)
       then Raise (Exn ValueError
                       (lit "ipinfo returned status " ++ int_repr (resp_status resp)
                            ++ lit ": " ++ resp_text resp))
       else resp_json resp
     end).
Proof.
  unfold fetch_ipinfo, lookup_url, lookup_params.
  destruct (net _ _) as [e|resp]; [reflexivity|].
  destruct (negb (resp_status resp =? 200)); reflexivity.
Qed.

(** The empty target: a usage hint and nothing else. *)
Lemma ipinfo_cmd_empty : cmd [] = ([Typing; Send usage_hint], Ok tt).
Proof. reflexivity. Qed.

(** A lookup that raises [e]. *)
Lemma ipinfo_cmd_raised (target : pystr) (e : exn) :
  target <> [] ->
  snd (fetch_ipinfo ipinfo_token net target) = Raise e ->
  cmd target
  = ([Typing; HttpGet (lookup_url target) (lookup_params ipinfo_token) 10]
       ++ (if is_ClientError (exn_class e)
           then [LogException (lit "Network error fetching ipinfo");
                 Send (lit "Error de red al consultar ipinfo: " ++ exn_text e)]
           else if is_ValueError (exn_class e)
                then [Send (lit "Error al obtener datos: " ++ exn_text e)]
                else [LogException (lit "Unexpected error");
                      Send (lit "Error inesperado: " ++ exn_text e)]),
     Ok tt).
Proof.
  intros Hne Hraise. unfold cmd, ipinfo_cmd.
  destruct target as [|c target]; [congruence|].
  cbn [truthy negb]. rewrite fetch_ipinfo_request in *. cbn [snd] in Hraise.
  rewrite Hraise. cbv [hbind hcatch emit hret lift fetch_failed].
  destruct (is_ClientError (exn_class e)); [reflexivity|].
  destruct (is_ValueError (exn_class e)); reflexivity.
Qed.

Lemma ipinfo_cmd_failed (target : pystr) (e : exn) :
  target <> [] ->
  net (lookup_url target) (lookup_params ipinfo_token) = Failed e ->
  cmd target
  = ([Typing; HttpGet (lookup_url target) (lookup_params ipinfo_token) 10]
       ++ (if is_ClientError (exn_class e)
           then [LogException (lit "Network error fetching ipinfo");
                 Send (lit "Error de red al consultar ipinfo: " ++ exn_text e)]
           else if is_ValueError (exn_class e)
                then [Send (lit "Error al obtener datos: " ++ exn_text e)]
                else [LogException (lit "Unexpected error");
                      Send (lit "Error inesperado: " ++ exn_text e)]),
     Ok tt).
Proof.
  intros Hne Hnet. apply ipinfo_cmd_raised; [assumption|].
  rewrite fetch_ipinfo_request, Hnet. reflexivity.
Qed.

(** A lookup that returns something that is no mapping: the first
    [data.get] raises. *)
Lemma ipinfo_cmd_not_a_dict (target : pystr) (data : pyval) :
  target <> [] ->
  snd (fetch_ipinfo ipinfo_token net target) = Ok data ->
  (forall d, data <> PDict d) ->
  cmd target
  = ([Typing; HttpGet (lookup_url target) (lookup_params ipinfo_token) 10],
     Raise (no_attribute data (lit "get"))).
Proof.
  intros Hne Hok Hnd. unfold cmd, ipinfo_cmd.
  destruct target as [|c target]; [congruence|].
  cbn [truthy negb]. rewrite fetch_ipinfo_request in *. cbn [snd] in Hok.
  rewrite Hok.
  destruct data as [ | | | | |d]; try reflexivity.
  exfalso. now apply (Hnd d).
Qed.

(** A lookup that returns a mapping. *)
Lemma ipinfo_cmd_returned (target : pystr) (d : pydict) :
  target <> [] ->
  snd (fetch_ipinfo ipinfo_token net target) = Ok (PDict d) ->
  cmd target
  = let request := [Typing; HttpGet (lookup_url target) (lookup_params ipinfo_token) 10] in
    if truthy (dict_get_none d (lit "bogon"))
    then (request ++ [Send bogon_notice], Ok tt)
    else if truthy (dict_get_none d (lit "error"))
         then (request ++ [Send (lit "ipinfo error: "
                                     ++ py_str isprintable (dict_get_none d (lit "error")))],
               Ok tt)
         else
           match make_embed_from_data isprintable target d with
           | Raise e => (request ++ [Render target d], Raise e)
           | Ok card =>
             if embed_len card >? 6000
             then
               match make_embed_from_data isprintable target (drop_raw d) with
               | Raise e =>
                 (request ++ [Render target d; Render target (drop_raw d)], Raise e)
               | Ok card' =>
                 (request ++ [Render target d; Render target (drop_raw d); SendEmbed card'],
                  Ok tt)
               end
             else (request ++ [Render target d; SendEmbed card], Ok tt)
           end.
Proof.
  intros Hne Hok. unfold cmd, ipinfo_cmd.
  destruct target as [|c target]; [congruence|].
  cbn [truthy negb]. rewrite fetch_ipinfo_request in *. cbn [snd] in Hok.
  rewrite Hok.
  cbn -[make_embed_from_data lit lookup_url lookup_params embed_len drop_raw py_str].
  unfold dict_get_none.
  destruct (truthy match dict_get d (lit "bogon") with Some x => x | None => PNone end);
    [reflexivity|].
  cbn -[make_embed_from_data lit lookup_url lookup_params embed_len drop_raw py_str].
  destruct (truthy match dict_get d (lit "error") with Some x => x | None => PNone end);
    [reflexivity|].
  cbn -[make_embed_from_data lit lookup_url lookup_params embed_len drop_raw py_str].
  destruct (make_embed_from_data isprintable (c :: target) d) as [card|e]; [|reflexivity].
  cbn -[make_embed_from_data lit lookup_url lookup_params embed_len drop_raw py_str].
  destruct (embed_len card >? 6000); [|reflexivity].
  unfold render.
  cbn -[make_embed_from_data lit lookup_url lookup_params embed_len drop_raw py_str].
  destruct (make_embed_from_data isprintable (c :: target) (drop_raw d)); reflexivity.
Qed.

Lemma ipinfo_cmd_fetched (target : pystr) (d : pydict) :
  target <> [] ->
  fetched net ipinfo_token target d ->
  cmd target
  = let request := [Typing; HttpGet (lookup_url target) (lookup_params ipinfo_token) 10] in
    if truthy (dict_get_none d (lit "bogon"))
    then (request ++ [Send bogon_notice], Ok tt)
    else if truthy (dict_get_none d (lit "error"))
         then (request ++ [Send (lit "ipinfo error: "
                                     ++ py_str isprintable (dict_get_none d (lit "error")))],
               Ok tt)
         else
           match make_embed_from_data isprintable target d with
           | Raise e => (request ++ [Render target d], Raise e)
           | Ok card =>
             if embed_len card >? 6000
             then
               match make_embed_from_data isprintable target (drop_raw d) with
               | Raise e =>
                 (request ++ [Render target d; Render target (drop_raw d)], Raise e)
               | Ok card' =>
                 (request ++ [Render target d; Render target (drop_raw d); SendEmbed card'],
                  Ok tt)
               end
             else (request ++ [Render target d; SendEmbed card], Ok tt)
           end.
Proof.
  intros Hne [text Hnet]. apply ipinfo_cmd_returned; [assumption|].
  rewrite fetch_ipinfo_request, Hnet. reflexivity.
Qed.

(** Every run of the handler on a non-empty target makes exactly one
    remote call, whatever the network does. *)
Lemma ipinfo_cmd_one_call (target : pystr) :
  target <> [] -> http_calls (fst (cmd target)) = 1%nat.
Proof.
  intros Hne.
  destruct (snd (fetch_ipinfo ipinfo_token net target)) as [data|e] eqn:E.
  - destruct data as [ | b | z | s | xs | d].
    1-5: rewrite (ipinfo_cmd_not_a_dict target _ Hne E) by discriminate; reflexivity.
    rewrite (ipinfo_cmd_returned target d Hne E). cbv zeta.
    repeat match goal with
           | |- context [if ?c then _ else _] => destruct c
           | |- context [match ?c with Ok _ => _ | Raise _ => _ end] => destruct c
           end; reflexivity.
  - rewrite (ipinfo_cmd_raised target e Hne E).
    destruct (is_ClientError (exn_class e)); [reflexivity|].
    destruct (is_ValueError (exn_class e)); reflexivity.
Qed.

End HandlerFacts.

Lemma truthy_get_none (d : pydict) (k : pystr) :
  truthy (dict_get_none d k) = field_set d k.
Proof. unfold dict_get_none, field_set. now destruct (dict_get d k). Qed.

(** C2, evaluated on the code. When the lookup of a non-empty target fails
    at network level, the handler makes the one remote call, logs, sends one
    message with the error's detail and stops. For a DNS failure and for a
    reset connection the message is the network-error message. For the
    expiry of the 10-second total timeout it is the unexpected-error message:
    the timeout reaches the handler as [asyncio.TimeoutError], which the
    network-error clause does not catch. *)
Theorem C2_network_failure (isprintable : N -> bool) (ipinfo_token : pyval)
        (net : pystr -> pydict -> http_outcome)
        (target : pystr) (failure : network_failure) (detail : pystr) :
  target <> [] ->
  net (lookup_url target) (lookup_params ipinfo_token)
  = Failed (aiohttp_raises failure detail) ->
  ipinfo_cmd isprintable ipinfo_token net target
  = ([Typing;
      HttpGet (lookup_url target) (lookup_params ipinfo_token) 10;
      LogException (match failure with
                    | DnsFailure | ConnectionReset => lit "Network error fetching ipinfo"
                    | TotalTimeout => lit "Unexpected error"
                    end);
      Send (match failure with
            | DnsFailure | ConnectionReset => lit "Error de red al consultar ipinfo: "
            | TotalTimeout => lit "Error inesperado: "
            end ++ detail)],
     Ok tt).
Proof.
  intros Hne Hnet.
  rewrite (ipinfo_cmd_failed isprintable ipinfo_token net target _ Hne Hnet).
  destruct failure; reflexivity.
Qed.

(** A lookup of 8.8.8.8 that times out is answered with the unexpected-error
    message. *)
Lemma C2_timeout_witness :
  ipinfo_cmd ascii_printable PNone (fun _ _ => Failed (aiohttp_raises TotalTimeout []))
             (lit "8.8.8.8")
  = ([Typing;
      HttpGet (lit "https://ipinfo.io/8.8.8.8/json") [] 10;
      LogException (lit "Unexpected error");
      Send (lit "Error inesperado: ")],
     Ok tt).
Proof.
  apply (C2_network_failure ascii_printable PNone
                            (fun _ _ => Failed (aiohttp_raises TotalTimeout []))
                            (lit "8.8.8.8") TotalTimeout []).
  - discriminate.
  - reflexivity.
Defined.

(** C5. When the lookup of a non-empty target succeeds with a mapping whose
    bogon marker is set, the handler sends the fixed reserved-address notice
    and stops; when the marker is not set and the mapping carries a non-empty
    error field, it sends the fixed error message with [str] of that value
    and stops. In both cases the presenter is not called. *)
Theorem C5_short_circuits (isprintable : N -> bool) (ipinfo_token : pyval)
        (net : pystr -> pydict -> http_outcome) (target : pystr) (d : pydict) :
  target <> [] ->
  fetched net ipinfo_token target d ->
  (field_set d (lit "bogon") = true ->
   ipinfo_cmd isprintable ipinfo_token net target
   = ([Typing; HttpGet (lookup_url target) (lookup_params ipinfo_token) 10;
       Send bogon_notice], Ok tt)) /\
  (field_set d (lit "bogon") = false -> field_set d (lit "error") = true ->
   ipinfo_cmd isprintable ipinfo_token net target
   = ([Typing; HttpGet (lookup_url target) (lookup_params ipinfo_token) 10;
       Send (lit "ipinfo error: " ++ py_str isprintable (dict_get_none d (lit "error")))],
      Ok tt)) /\
  (field_set d (lit "bogon") = true \/ field_set d (lit "error") = true ->
   render_calls (fst (ipinfo_cmd isprintable ipinfo_token net target)) = 0%nat).
Proof.
  intros Hne Hf.
  rewrite (ipinfo_cmd_fetched isprintable ipinfo_token net target d Hne Hf).
  rewrite !truthy_get_none. cbv zeta.
  split; [|split].
  - intros ->. reflexivity.
  - intros -> ->. reflexivity.
  - intros H. destruct (field_set d (lit "bogon")); [reflexivity|].
    destruct H as [H|H]; [discriminate|]. rewrite H. reflexivity.
Qed.

Lemma answers_fetched (tok : pyval) (target : pystr) (d : pydict) :
  fetched (answers (PDict d)) tok target d.
Proof. eexists. reflexivity. Qed.

(** A reserved address: the notice is the whole reply. *)
Lemma C5_bogon_witness :
  let d := [(lit "ip", PStr (lit "10.0.0.1")); (lit "bogon", PBool true)] in
  lit "10.0.0.1" <> [] /\
  fetched (answers (PDict d)) PNone (lit "10.0.0.1") d /\
  ipinfo_cmd ascii_printable PNone (answers (PDict d)) (lit "10.0.0.1")
  = ([Typing; HttpGet (lit "https://ipinfo.io/10.0.0.1/json") [] 10; Send bogon_notice],
     Ok tt).
Proof.
  intros d.
  assert (Hne : lit "10.0.0.1" <> []) by discriminate.
  pose proof (answers_fetched PNone (lit "10.0.0.1") d) as Hf.
  split; [exact Hne|]. split; [exact Hf|].
  exact (proj1 (C5_short_circuits ascii_printable PNone (answers (PDict d))
                                  (lit "10.0.0.1") d Hne Hf) eq_refl).
Defined.

(** C6. When the lookup of a non-empty target succeeds with a mapping that
    is neither a bogon nor an error, the handler renders the mapping once;
    if that card is longer than 6000 characters it renders once more, from
    the mapping without the item stored under the key "raw", and sends the
    second card whatever its length; otherwise it sends the first card as it
    is. *)
Theorem C6_size_safety (isprintable : N -> bool) (ipinfo_token : pyval)
        (net : pystr -> pydict -> http_outcome) (target : pystr) (d : pydict) :
  target <> [] ->
  fetched net ipinfo_token target d ->
  dict_ok d ->
  field_set d (lit "bogon") = false ->
  field_set d (lit "error") = false ->
  let reduced_data := List.filter (fun kv => negb (pystr_eqb (fst kv) (lit "raw"))) d in
  exists card reduced,
    make_embed_from_data isprintable target d = Ok card /\
    make_embed_from_data isprintable target reduced_data = Ok reduced /\
    ipinfo_cmd isprintable ipinfo_token net target
    = if embed_len card >? 6000
      then ([Typing; HttpGet (lookup_url target) (lookup_params ipinfo_token) 10;
             Render target d; Render target reduced_data; SendEmbed reduced], Ok tt)
      else ([Typing; HttpGet (lookup_url target) (lookup_params ipinfo_token) 10;
             Render target d; SendEmbed card], Ok tt).
Proof.
  intros Hne Hf Hok Hb He reduced_data.
  rewrite (ipinfo_cmd_fetched isprintable ipinfo_token net target d Hne Hf).
  rewrite !truthy_get_none, Hb, He. cbv zeta.
  rewrite (drop_raw_filter d Hok). fold reduced_data.
  rewrite (make_embed_shape isprintable target d).
  rewrite (make_embed_shape isprintable target reduced_data).
  eexists. eexists. split; [reflexivity|]. split; [reflexivity|].
  match goal with |- context [if ?c then _ else _] => destruct c end; reflexivity.
Qed.

(** C10. For a mapping with no key "raw", rendering the mapping without that
    key gives the card of the mapping itself; so the card the handler sends
    is the first card in every case, and an oversize card stays oversize. *)
Theorem C10_shrink_is_noop (isprintable : N -> bool) (target : pystr) (d : pydict) :
  dict_ok d ->
  ~ In (lit "raw") (dict_keys d) ->
  make_embed_from_data isprintable target (drop_raw d)
  = make_embed_from_data isprintable target d
  /\
  forall (ipinfo_token : pyval) (net : pystr -> pydict -> http_outcome),
    target <> [] ->
    fetched net ipinfo_token target d ->
    field_set d (lit "bogon") = false ->
    field_set d (lit "error") = false ->
    exists card,
      make_embed_from_data isprintable target d = Ok card /\
      ipinfo_cmd isprintable ipinfo_token net target
      = ([Typing; HttpGet (lookup_url target) (lookup_params ipinfo_token) 10;
          Render target d]
           ++ (if embed_len card >? 6000 then [Render target d] else [])
           ++ [SendEmbed card],
         Ok tt).
Proof.
  intros Hok Hraw.
  rewrite (drop_raw_absent d Hok Hraw). split; [reflexivity|].
  intros tok net Hne Hf Hb He.
  rewrite (ipinfo_cmd_fetched isprintable tok net target d Hne Hf).
  rewrite !truthy_get_none, Hb, He. cbv zeta.
  rewrite (drop_raw_absent d Hok Hraw).
  rewrite (make_embed_shape isprintable target d).
  eexists. split; [reflexivity|].
  match goal with |- context [if ?c then _ else _] => destruct c end; reflexivity.
Qed.

Lemma C6_size_safety_witness :
  let d := long_org_result in
  let target := lit "1.1.1.1" in
  let reduced_data := List.filter (fun kv => negb (pystr_eqb (fst kv) (lit "raw"))) d in
  target <> [] /\
  fetched (answers (PDict d)) PNone target d /\
  dict_ok d /\
  field_set d (lit "bogon") = false /\
  field_set d (lit "error") = false /\
  exists card reduced,
    make_embed_from_data ascii_printable target d = Ok card /\
    make_embed_from_data ascii_printable target reduced_data = Ok reduced /\
    ipinfo_cmd ascii_printable PNone (answers (PDict d)) target
    = if embed_len card >? 6000
      then ([Typing; HttpGet (lookup_url target) (lookup_params PNone) 10;
             Render target d; Render target reduced_data; SendEmbed reduced], Ok tt)
      else ([Typing; HttpGet (lookup_url target) (lookup_params PNone) 10;
             Render target d; SendEmbed card], Ok tt).
Proof.
  intros d target reduced_data.
  assert (Hne : target <> []) by discriminate.
  pose proof (answers_fetched PNone target d) as Hf.
  assert (Hok : dict_ok d) by (apply distinctb_NoDup; reflexivity).
  assert (Hb : field_set d (lit "bogon") = false) by reflexivity.
  assert (He : field_set d (lit "error") = false) by reflexivity.
  repeat (split; [assumption|]).
  exact (C6_size_safety ascii_printable PNone (answers (PDict d)) target d Hne Hf Hok Hb He).
Defined.

(** The second card is sent although it is still longer than the ceiling. *)
Example oversize_reply_stays_oversize :
  exists tr reduced,
    ipinfo_cmd ascii_printable PNone (answers (PDict long_org_result)) (lit "1.1.1.1")
    = (tr ++ [SendEmbed reduced], Ok tt)
    /\ render_calls tr = 2%nat
    /\ (embed_len reduced >? 6000) = true.
Proof.
  eexists. eexists. split; [|split].
  - vm_compute. 
    match goal with
    | |- (?a :: ?b :: ?c :: ?d :: [?e], _) = _ =>
      change (a :: b :: c :: d :: [e]) with ([a; b; c; d] ++ [e])
    end.
    reflexivity.
  - reflexivity.
  - vm_compute. reflexivity.
Qed.

Lemma C10_shrink_is_noop_witness :
  let d := long_org_no_raw in
  let target := lit "1.1.1.1" in
  dict_ok d /\
  ~ In (lit "raw") (dict_keys d) /\
  make_embed_from_data ascii_printable target (drop_raw d)
  = make_embed_from_data ascii_printable target d.
Proof.
  intros d target.
  assert (Hok : dict_ok d) by (apply distinctb_NoDup; reflexivity).
  assert (Hraw : ~ In (lit "raw") (dict_keys d)).
  { intros H. vm_compute in H. intuition discriminate. }
  split; [exact Hok|]. split; [exact Hraw|].
  exact (proj1 (C10_shrink_is_noop ascii_printable target d Hok Hraw)).
Defined.

(** ** Start-up *)

(** When one configuration value can be read, the configuration is a mapping
    whose bot section is a mapping, and every value can be read. *)
Lemma config_value_section (config : pyval) (k : pystr) (v : pyval) :
  config_value config k = Ok v ->
  exists section,
    py_get config (lit "BOT_CONFIG") (PDict []) = Ok (PDict section) /\
    forall k', config_value config k' = Ok (dict_get_none section k').
Proof.
  unfold config_value. intros H.
  destruct (py_get config (lit "BOT_CONFIG") (PDict [])) as [section|e] eqn:E;
    [|discriminate].
  cbn [rbind] in *.
  destruct section as [ | | | | |s]; try discriminate.
  exists s. split; [reflexivity|]. intros k'. reflexivity.
Qed.

Lemma load_config_log (path : pystr) (f : config_file) :
  List.filter is_registration (snd (load_config path f)) = [].
Proof. destruct f; reflexivity. Qed.


(** ** The command framework *)

(** C3 as stated fails: a [loc] of two pieces that are no numbers still gets
    its map block. *)
Lemma C3_map_block_without_numbers :
  exists card,
    make_embed_from_data ascii_printable (lit "example.com")
                         [(lit "loc", PStr (lit "abc,def"))] = Ok card /\
    has_field (lit "Map") card = true /\
    loc_two_numbers [(lit "loc", PStr (lit "abc,def"))] = false.
Proof.
  eexists. split; [vm_compute; reflexivity|]. split; vm_compute; reflexivity.
Qed.

(** A [loc] without a comma gets no map block. *)
Example no_map_block_for_abc :
  exists card,
    make_embed_from_data ascii_printable (lit "example.com")
                         [(lit "loc", PStr (lit "abc"))] = Ok card /\
    has_field (lit "Map") card = false.
Proof. eexists. split; vm_compute; reflexivity. Qed.

(** The cooldown check refuses with the cooldown error only. *)
Lemma prepare_cooldowns_error (p : cooldown_policy) (cache cache' : gmap Z Cooldown)
      (user current : Z) (err : command_error) :
  prepare_cooldowns p cache user current = (cache', Some err) ->
  exists retry_after, err = CommandOnCooldown retry_after /\ retry_after <> 0.
Proof.
  unfold prepare_cooldowns.
  destruct (get_bucket p cache user current) as [c b].
  destruct (update_rate_limit p b current) as [b' [r|]]; [|discriminate].
  destruct (r =? 0) eqn:E; [discriminate|].
  intros H. inversion H. exists r. split; [reflexivity|].
  now apply Z.eqb_neq.
Qed.

(** C8, evaluated on the code. An invocation without argument never reaches
    the handler: the framework refuses it, with the cooldown error or with
    the missing-argument error for [target]. Nothing is sent, so no usage
    hint either, and no remote call is made. The usage hint is what the
    handler sends for an argument that is the empty string. *)
Theorem C8_missing_argument (isprintable : N -> bool) (ipinfo_token : pyval)
        (net : pystr -> pydict -> http_outcome)
        (cache : gmap Z Cooldown) (user current : Z) :
  (exists cache' err,
      invoke_ipinfo isprintable ipinfo_token net cache user current []
      = (cache', [], Some err) /\
      (err = MissingRequiredArgument (lit "target")
       \/ exists retry_after, err = CommandOnCooldown retry_after)) /\
  (forall cache' rest,
      prepare_cooldowns ipinfo_cooldown cache user current = (cache', None) ->
      invoke_ipinfo isprintable ipinfo_token net cache user current ([] :: rest)
      = (cache', [Typing; Send usage_hint], None)).
Proof.
  unfold invoke_ipinfo. split.
  - destruct (prepare_cooldowns ipinfo_cooldown cache user current) as [cache' [err|]] eqn:E.
    + exists cache', err. split; [reflexivity|].
      destruct (prepare_cooldowns_error _ _ _ _ _ _ E) as [r [-> _]]. eauto.
    + eexists. eexists. split; [reflexivity|]. now left.
  - intros cache' rest ->. reflexivity.
Qed.

Lemma verify_lookup (p : cooldown_policy) (cache : gmap Z Cooldown) (user t : Z) :
  verify_cache_integrity p cache t !! user
  = match cache !! user with
    | Some b => if t >? cd_last b + cd_per p then None else Some b
    | None => None
    end.
Proof.
  unfold verify_cache_integrity.
  destruct (cache !! user) as [b|] eqn:E.
  - destruct (t >? cd_last b + cd_per p) eqn:T.
    + apply map_lookup_filter_None. right. intros x Hx.
      rewrite E in Hx. inversion Hx; subst. simpl. congruence.
    + apply map_lookup_filter_Some. split; [assumption|]. exact T.
  - apply map_lookup_filter_None. now left.
Qed.

(** An invocation outside a running window is admitted and opens a window
    at its own time. *)
Lemma prepare_admit (cache : gmap Z Cooldown) (user t : Z) :
  window_over cache user t ->
  prepare_cooldowns ipinfo_cooldown cache user t
  = (<[user := {| cd_window := t; cd_tokens := 0; cd_last := t |}]>
       (verify_cache_integrity ipinfo_cooldown cache t),
     None).
Proof.
  unfold window_over, prepare_cooldowns, get_bucket. intros Hw.
  rewrite verify_lookup.
  destruct (cache !! user) as [b|] eqn:E.
  - destruct (t >? cd_last b + cd_per ipinfo_cooldown) eqn:T.
    + unfold update_rate_limit, get_tokens, fresh_bucket. simpl.
      destruct (t >? 0 + 3 * 1000); simpl; now rewrite insert_insert_eq.
    + unfold update_rate_limit, get_tokens.
      replace (t >? cd_window b + cd_per ipinfo_cooldown) with true
        by (symmetry; rewrite Z.gtb_ltb; apply Z.ltb_lt; unfold ipinfo_cooldown in *; simpl in *; lia).
      reflexivity.
  - unfold update_rate_limit, get_tokens, fresh_bucket. simpl.
    destruct (t >? 0 + 3 * 1000); simpl; now rewrite insert_insert_eq.
Qed.

(** An invocation inside the window it opened itself is refused. *)
Lemma prepare_refuse (cache : gmap Z Cooldown) (user w l t : Z) :
  cache !! user = Some {| cd_window := w; cd_tokens := 0; cd_last := l |} ->
  w <= l <= t -> t < w + 3000 ->
  prepare_cooldowns ipinfo_cooldown cache user t
  = (<[user := {| cd_window := w; cd_tokens := 0; cd_last := t |}]>
       (verify_cache_integrity ipinfo_cooldown cache t),
     Some (CommandOnCooldown (3000 - (t - w)))).
Proof.
  intros Hb Hl Hw. unfold prepare_cooldowns, get_bucket.
  rewrite verify_lookup, Hb. cbn [cd_last cd_per ipinfo_cooldown].
  replace (t >? l + 3 * 1000) with false by (symmetry; rewrite Z.gtb_ltb; apply Z.ltb_ge; lia).
  unfold update_rate_limit, get_tokens. cbn [cd_window cd_tokens cd_per cd_rate ipinfo_cooldown].
  replace (t >? w + 3 * 1000) with false by (symmetry; rewrite Z.gtb_ltb; apply Z.ltb_ge; lia).
  cbn [Z.eqb]. 
  replace (3 * 1000 - (t - w) =? 0) with false by (symmetry; apply Z.eqb_neq; lia).
  reflexivity.
Qed.

(** An admitted invocation with a non-empty argument makes one remote
    call. *)
Lemma invoke_admitted (isprintable : N -> bool) (ipinfo_token : pyval)
      (net : pystr -> pydict -> http_outcome)
      (cache cache' : gmap Z Cooldown) (user t : Z) (target : pystr) :
  prepare_cooldowns ipinfo_cooldown cache user t = (cache', None) ->
  target <> [] ->
  exists tr err,
    invoke_ipinfo isprintable ipinfo_token net cache user t [target] = (cache', tr, err)
    /\ http_calls tr = 1%nat.
Proof.
  intros Hp Hne. unfold invoke_ipinfo. rewrite Hp.
  pose proof (ipinfo_cmd_one_call isprintable ipinfo_token net target Hne) as H1.
  destruct (ipinfo_cmd isprintable ipinfo_token net target) as [tr [[]|e]];
    eexists; eexists; split; try reflexivity; exact H1.
Qed.

(** An invocation exactly one period after the window opened is admitted
    (the wait left is zero), and the window stays the old one. *)
Lemma prepare_boundary (cache : gmap Z Cooldown) (user w l : Z) :
  cache !! user = Some {| cd_window := w; cd_tokens := 0; cd_last := l |} ->
  w <= l <= w + 3000 ->
  prepare_cooldowns ipinfo_cooldown cache user (w + 3000)
  = (<[user := {| cd_window := w; cd_tokens := 0; cd_last := w + 3000 |}]>
       (verify_cache_integrity ipinfo_cooldown cache (w + 3000)),
     None).
Proof.
  intros Hb Hl. unfold prepare_cooldowns, get_bucket.
  rewrite verify_lookup, Hb. cbn [cd_last cd_per ipinfo_cooldown].
  replace (w + 3000 >? l + 3 * 1000) with false
    by (symmetry; rewrite Z.gtb_ltb; apply Z.ltb_ge; lia).
  unfold update_rate_limit, get_tokens.
  cbn [cd_window cd_tokens cd_per cd_rate ipinfo_cooldown].
  replace (w + 3000 >? w + 3 * 1000) with false
    by (symmetry; rewrite Z.gtb_ltb; apply Z.ltb_ge; lia).
  cbn [Z.eqb].
  replace (3 * 1000 - (w + 3000 - w) =? 0) with true by (symmetry; apply Z.eqb_eq; lia).
  reflexivity.
Qed.

(** C9, as the mechanism has it. The cooldown of [ipinfo] is one invocation
    per 3 seconds and user, counted from the invocation that opens the
    user's window. Take a user whose window is not running at [t1] (no
    bucket, or a window opened more than 3 seconds before). The invocation
    at [t1] is admitted and makes one remote call; an invocation by the same
    user at [t2], less than 3 seconds later, is refused with the cooldown
    error and makes no call; an invocation at [t3], more than 3 seconds
    after [t1], is admitted again and makes one call. An invocation exactly
    3 seconds after [t1] is admitted too, without opening a new window.
    Meanwhile any other user whose own window is not running is admitted at
    any time. *)
Theorem C9_cooldown (isprintable : N -> bool) (ipinfo_token : pyval)
        (net : pystr -> pydict -> http_outcome)
        (cache : gmap Z Cooldown) (user t1 t2 t3 : Z) (a1 a2 a3 : pystr) :
  a1 <> [] -> a3 <> [] ->
  window_over cache user t1 ->
  t1 <= t2 < t1 + 3000 ->
  t1 + 3000 < t3 ->
  exists c1 tr1 e1 c2 c3 tr3 e3,
    invoke_ipinfo isprintable ipinfo_token net cache user t1 [a1] = (c1, tr1, e1)
    /\ http_calls tr1 = 1%nat
    /\ invoke_ipinfo isprintable ipinfo_token net c1 user t2 [a2]
       = (c2, [], Some (CommandOnCooldown (3000 - (t2 - t1))))
    /\ invoke_ipinfo isprintable ipinfo_token net c2 user t3 [a3] = (c3, tr3, e3)
    /\ http_calls tr3 = 1%nat
    /\ (exists cb trb eb,
           invoke_ipinfo isprintable ipinfo_token net c1 user (t1 + 3000) [a3]
           = (cb, trb, eb)
           /\ http_calls trb = 1%nat
           /\ cb !! user = Some {| cd_window := t1; cd_tokens := 0;
                                   cd_last := t1 + 3000 |})
    /\ (forall other t' a',
           other <> user -> a' <> [] -> window_over cache other t' ->
           exists c' tr' e',
             invoke_ipinfo isprintable ipinfo_token net c1 other t' [a'] = (c', tr', e')
             /\ http_calls tr' = 1%nat).
Proof.
  intros Ha1 Ha3 Hw H12 H13.
  pose proof (prepare_admit cache user t1 Hw) as P1.
  set (c1 := <[user := {| cd_window := t1; cd_tokens := 0; cd_last := t1 |}]>
               (verify_cache_integrity ipinfo_cooldown cache t1)) in *.
  destruct (invoke_admitted isprintable ipinfo_token net _ _ _ _ a1 P1 Ha1)
    as [tr1 [e1 [I1 N1]]].
  assert (L1 : c1 !! user = Some {| cd_window := t1; cd_tokens := 0; cd_last := t1 |})
    by apply lookup_insert_eq.
  pose proof (prepare_refuse c1 user t1 t1 t2 L1 ltac:(lia) ltac:(lia)) as P2.
  set (c2 := <[user := {| cd_window := t1; cd_tokens := 0; cd_last := t2 |}]>
               (verify_cache_integrity ipinfo_cooldown c1 t2)) in *.
  assert (W3 : window_over c2 user t3).
  { unfold window_over, c2. rewrite lookup_insert_eq. simpl. lia. }
  pose proof (prepare_admit c2 user t3 W3) as P3.
  destruct (invoke_admitted isprintable ipinfo_token net _ _ _ _ a3 P3 Ha3)
    as [tr3 [e3 [I3 N3]]].
  pose proof (prepare_boundary c1 user t1 t1 L1 ltac:(lia)) as Pb.
  destruct (invoke_admitted isprintable ipinfo_token net _ _ _ _ a3 Pb Ha3)
    as [trb [eb [Ib Nb]]].
  exists c1, tr1, e1, c2. eexists. exists tr3, e3.
  split; [exact I1|]. split; [exact N1|].
  split; [unfold invoke_ipinfo; rewrite P2; reflexivity|].
  split; [exact I3|]. split; [exact N3|].
  split.
  { eexists. exists trb, eb. split; [exact Ib|]. split; [exact Nb|].
    apply lookup_insert_eq. }
  intros other t' a' Hother Ha' Hwo.
  assert (Wo : window_over c1 other t').
  { unfold window_over in *. unfold c1.
    rewrite lookup_insert_ne by congruence. rewrite verify_lookup.
    destruct (cache !! other) as [b|]; [|exact I].
    destruct (t1 >? cd_last b + cd_per ipinfo_cooldown); [exact I|assumption]. }
  pose proof (prepare_admit c1 other t' Wo) as Po.
  destruct (invoke_admitted isprintable ipinfo_token net _ _ _ _ a' Po Ha')
    as [tr' [e' [Io No]]].
  eauto.
Qed.

Lemma C9_cooldown_witness :
  let a := lit "8.8.8.8" in
  let net := answers (PDict [(lit "ip", PStr a)]) in
  a <> [] /\ window_over ∅ 7 1000 /\ 1000 <= 2500 < 1000 + 3000 /\ 1000 + 3000 < 4001 /\
  exists c1 tr1 e1 c2 c3 tr3 e3,
    invoke_ipinfo ascii_printable PNone net ∅ 7 1000 [a] = (c1, tr1, e1)
    /\ http_calls tr1 = 1%nat
    /\ invoke_ipinfo ascii_printable PNone net c1 7 2500 [a]
       = (c2, [], Some (CommandOnCooldown (3000 - (2500 - 1000))))
    /\ invoke_ipinfo ascii_printable PNone net c2 7 4001 [a] = (c3, tr3, e3)
    /\ http_calls tr3 = 1%nat
    /\ (exists cb trb eb,
           invoke_ipinfo ascii_printable PNone net c1 7 (1000 + 3000) [a] = (cb, trb, eb)
           /\ http_calls trb = 1%nat
           /\ cb !! 7 = Some {| cd_window := 1000; cd_tokens := 0;
                                cd_last := 1000 + 3000 |})
    /\ (forall other t' a',
           other <> 7 -> a' <> [] -> window_over ∅ other t' ->
           exists c' tr' e',
             invoke_ipinfo ascii_printable PNone net c1 other t' [a'] = (c', tr', e')
             /\ http_calls tr' = 1%nat).
Proof.
  intros a net.
  assert (Ha : a <> []) by discriminate.
  assert (Hw : window_over ∅ 7 1000) by exact I.
  assert (H12 : 1000 <= 2500 < 1000 + 3000) by lia.
  assert (H13 : 1000 + 3000 < 4001) by lia.
  repeat (split; [assumption|]).
  exact (C9_cooldown ascii_printable PNone net ∅ 7 1000 2500 4001 a a a Ha Ha Hw H12 H13).
Defined.

(** C9 as stated fails: a user who invoked at 1.000 s is admitted at 4.000 s
    (exactly one period later, the wait left being zero) and again at
    4.001 s, so two invocations one millisecond apart make a remote call
    each. *)
Lemma C9_two_calls_within_a_millisecond :
  let a := lit "8.8.8.8" in
  let net := answers (PDict [(lit "ip", PStr a)]) in
  exists c1 tr1 e1 c2 tr2 e2 c3 tr3 e3,
    invoke_ipinfo ascii_printable PNone net ∅ 7 1000 [a] = (c1, tr1, e1)
    /\ invoke_ipinfo ascii_printable PNone net c1 7 4000 [a] = (c2, tr2, e2)
    /\ invoke_ipinfo ascii_printable PNone net c2 7 4001 [a] = (c3, tr3, e3)
    /\ 4001 - 4000 < 3000
    /\ http_calls tr2 = 1%nat
    /\ http_calls tr3 = 1%nat.
Proof.
  intros a net.
  assert (Ha : a <> []) by discriminate.
  pose proof (prepare_admit ∅ 7 1000 I) as P1.
  set (c1 := <[7 := {| cd_window := 1000; cd_tokens := 0; cd_last := 1000 |}]>
               (verify_cache_integrity ipinfo_cooldown ∅ 1000)) in *.
  destruct (invoke_admitted ascii_printable PNone net _ _ _ _ a P1 Ha) as [tr1 [e1 [I1 _]]].
  assert (L1 : c1 !! 7 = Some {| cd_window := 1000; cd_tokens := 0; cd_last := 1000 |})
    by apply lookup_insert_eq.
  pose proof (prepare_boundary c1 7 1000 1000 L1 ltac:(lia)) as P2.
  change (1000 + 3000) with 4000 in P2.
  set (c2 := <[7 := {| cd_window := 1000; cd_tokens := 0; cd_last := 4000 |}]>
               (verify_cache_integrity ipinfo_cooldown c1 4000)) in *.
  destruct (invoke_admitted ascii_printable PNone net _ _ _ _ a P2 Ha) as [tr2 [e2 [I2 N2]]].
  assert (W3 : window_over c2 7 4001).
  { unfold window_over, c2. rewrite lookup_insert_eq. simpl. lia. }
  pose proof (prepare_admit c2 7 4001 W3) as P3.
  destruct (invoke_admitted ascii_printable PNone net _ _ _ _ a P3 Ha) as [tr3 [e3 [I3 N3]]].
  exists c1, tr1, e1, c2, tr2, e2. eexists. exists tr3, e3.
  split; [exact I1|]. split; [exact I2|]. split; [exact I3|].
  split; [lia|]. split; [exact N2|exact N3].
Qed.

(** ** Reading back what [json.dumps] wrote *)

(** *** Integers *)

Lemma uint_digits_are_digits (d : Decimal.uint) : forallb is_digit (uint_digits d) = true.
Proof. induction d; simpl; auto. Qed.

Lemma number_end_float_tail (rest : pystr) : number_end rest -> float_tail rest = false.
Proof.
  destruct rest as [|c [|d r]]; simpl; auto.
  intros [_ [H1 [H2 H3]]].
  apply N.eqb_neq in H1, H2, H3. now rewrite H1, H2, H3.
Qed.

Lemma span_digits_app (ds rest : pystr) :
  forallb is_digit ds = true -> number_end rest ->
  span_digits (ds ++ rest) = (ds, rest).
Proof.
  intros Hds Hrest. induction ds as [|c ds IH]; simpl in *.
  - destruct rest as [|c r]; [reflexivity|].
    simpl. destruct Hrest as [-> _]. reflexivity.
  - apply andb_true_iff in Hds. destruct Hds as [-> Hds].
    now rewrite (IH Hds).
Qed.

Lemma fold_digits_pos (d : Decimal.uint) (acc : positive) :
  fold_left (fun a c => a * 10 + (Z.of_N c - 48)) (uint_digits d) (Zpos acc)
  = Zpos (Pos.of_uint_acc d acc).
Proof.
  revert acc. induction d; intros acc; simpl; try reflexivity;
    match goal with
    | |- fold_left _ _ ?z = _ =>
      match goal with
      | |- _ = Zpos (Pos.of_uint_acc _ ?q) =>
        replace z with (Zpos q) by lia; apply IHd
      end
    end.
Qed.

Lemma digits_value_uint (d : Decimal.uint) :
  digits_value (uint_digits d) = Z.of_N (Pos.of_uint d).
Proof.
  unfold digits_value. induction d; simpl; try reflexivity; try exact IHd;
    match goal with
    | |- _ = Zpos (Pos.of_uint_acc _ ?q) => apply (fold_digits_pos d q)
    end.
Qed.

Lemma nzhead_not_D0 (d d' : Decimal.uint) : Decimal.nzhead d <> Decimal.D0 d'.
Proof. induction d; simpl; try discriminate. exact IHd. Qed.

(** The decimal form of a positive number starts with a non-zero digit. *)
Lemma pos_digits_head (p : positive) :
  exists c ds, uint_digits (Pos.to_uint p) = c :: ds
               /\ is_digit c = true /\ c <> 48%N.
Proof.
  pose proof (DecimalPos.Unsigned.to_of (Pos.to_uint p)) as Hn.
  rewrite DecimalPos.Unsigned.of_to in Hn. simpl in Hn.
  pose proof (DecimalPos.Unsigned.to_uint_nonzero p) as Hz.
  pose proof (DecimalPos.Unsigned.to_uint_nonnil p) as Hnil.
  destruct (Pos.to_uint p) as [|d|d|d|d|d|d|d|d|d|d] eqn:E;
    try (simpl; eexists; eexists; split; [reflexivity|]; split; [reflexivity|discriminate]).
  - congruence.
  - exfalso. unfold Decimal.unorm in Hn. simpl in Hn.
    destruct (Decimal.nzhead d) eqn:En; try congruence.
    now apply (nzhead_not_D0 _ _ En).
Qed.

Lemma scan_natural_pos (p : positive) (rest : pystr) :
  number_end rest ->
  scan_natural (uint_digits (Pos.to_uint p) ++ rest) = Some (Zpos p, rest).
Proof.
  intros Hrest.
  destruct (pos_digits_head p) as [c [ds [E [Hc Hnz]]]].
  pose proof (uint_digits_are_digits (Pos.to_uint p)) as Hall.
  pose proof (digits_value_uint (Pos.to_uint p)) as Hval.
  rewrite DecimalPos.Unsigned.of_to in Hval.
  rewrite E in *. simpl in Hall. apply andb_true_iff in Hall. destruct Hall as [_ Hall].
  cbn [app scan_natural].
  apply N.eqb_neq in Hnz. rewrite Hnz, Hc.
  rewrite (span_digits_app ds rest Hall Hrest). now rewrite Hval.
Qed.

(** An integer is read back from its decimal form. *)
Lemma scan_number_int (z : Z) (rest : pystr) :
  number_end rest ->
  scan_number (int_repr z ++ rest) = Some (PInt z, rest).
Proof.
  intros Hrest. unfold scan_number, int_repr.
  destruct z as [|p|p]; cbn [Z.to_int].
  - simpl. now rewrite (number_end_float_tail rest Hrest).
  - destruct (pos_digits_head p) as [c [ds [E [Hc Hnz]]]].
    pose proof (scan_natural_pos p rest Hrest) as Hs.
    rewrite E in *. cbn [app] in *.
    assert (Hm : (c =? 45)%N = false).
    { apply N.eqb_neq. intros ->. discriminate. }
    rewrite Hm. cbn [snd fst]. rewrite Hs.
    now rewrite (number_end_float_tail rest Hrest).
  - cbn [app]. cbn [N.eqb Pos.eqb snd fst].
    rewrite (scan_natural_pos p rest Hrest).
    now rewrite (number_end_float_tail rest Hrest).
Qed.

(** The first character of an integer's decimal form: a digit or the minus
    sign. *)
Lemma int_repr_head (z : Z) :
  exists c r, int_repr z = c :: r /\ (is_digit c = true \/ c = 45%N).
Proof.
  unfold int_repr. destruct z as [|p|p]; cbn [Z.to_int].
  - eexists. eexists. split; [reflexivity|]. now left.
  - destruct (pos_digits_head p) as [c [ds [E [Hc _]]]]. rewrite E. eauto.
  - eexists. eexists. split; [reflexivity|]. now right.
Qed.

(** *** Strings *)

Lemma below_32_cases (P : N -> Prop) :
  (forall n : nat, (n < 32)%nat -> P (N.of_nat n)) ->
  forall c, (c < 32)%N -> P c.
Proof.
  intros H c Hc. rewrite <- (N2Nat.id c). apply H. lia.
Qed.

(** The escape of a control character denotes that character. *)
Lemma hex4_control (c : N) :
  (c < 32)%N ->
  hex4 48 48 (hexdigit (c / 16)) (hexdigit (c mod 16)) = Some c.
Proof.
  revert c. apply below_32_cases. intros n Hn.
  do 32 (destruct n as [|n]; [vm_compute; reflexivity|]). lia.
Qed.

Lemma scanstring_char (c : N) (tail : pystr) (s rest : pystr) :
  scanstring tail = Some (s, rest) ->
  scanstring (escape_char c ++ tail) = Some (c :: s, rest).
Proof.
  intros IH. unfold escape_char.
  destruct (c =? 34)%N eqn:E34; [apply N.eqb_eq in E34; subst c; simpl; now rewrite IH|].
  destruct (c =? 92)%N eqn:E92; [apply N.eqb_eq in E92; subst c; simpl; now rewrite IH|].
  destruct (c =? 10)%N eqn:E10; [apply N.eqb_eq in E10; subst c; simpl; now rewrite IH|].
  destruct (c =? 13)%N eqn:E13; [apply N.eqb_eq in E13; subst c; simpl; now rewrite IH|].
  destruct (c =? 9)%N eqn:E9; [apply N.eqb_eq in E9; subst c; simpl; now rewrite IH|].
  destruct (c =? 8)%N eqn:E8; [apply N.eqb_eq in E8; subst c; simpl; now rewrite IH|].
  destruct (c =? 12)%N eqn:E12; [apply N.eqb_eq in E12; subst c; simpl; now rewrite IH|].
  destruct (c <? 32)%N eqn:E32.
  - apply N.ltb_lt in E32.
    cbn [app scanstring].
    replace (92 =? 34)%N with false by reflexivity.
    replace (92 =? 92)%N with true by reflexivity.
    replace (117 =? 117)%N with true by reflexivity.
    rewrite (hex4_control c E32).
    replace ((55296 <=? c)%N && (c <=? 56319)%N) with false.
    + now rewrite IH.
    + symmetry. apply andb_false_iff. left. apply N.leb_gt. lia.
  - cbn [app scanstring]. rewrite E34, E92, E32. now rewrite IH.
Qed.

(** A string is read back from its JSON form. *)
Lemma scanstring_encoded (s rest : pystr) :
  scanstring (flat_map escape_char s ++ 34%N :: rest) = Some (s, rest).
Proof.
  induction s as [|c s IH]; [reflexivity|].
  cbn [flat_map]. rewrite <- app_assoc. now apply scanstring_char.
Qed.

(** *** Layout *)

Lemma skip_ws_start (s : pystr) : value_start s -> skip_ws s = s.
Proof. destruct s as [|c r]; simpl; [tauto|]. now intros [-> _]. Qed.

Lemma skip_ws_spaces (n : nat) (s : pystr) : skip_ws (repeat 32%N n ++ s) = skip_ws s.
Proof. induction n as [|n IH]; simpl; auto. Qed.

Lemma skip_ws_newline_indent (level : nat) (s : pystr) :
  skip_ws (newline_indent level ++ s) = skip_ws s.
Proof. unfold newline_indent. cbn [app skip_ws is_ws N.eqb orb Pos.eqb]. apply skip_ws_spaces. Qed.

Lemma number_end_newline_indent (level : nat) (s : pystr) :
  number_end (newline_indent level ++ s).
Proof. simpl. repeat split; discriminate. Qed.

Lemma number_end_separator (lv : nat) (s : pystr) : number_end (item_separator lv ++ s).
Proof. simpl. repeat split; discriminate. Qed.

Lemma after_separator (lv : nat) (s : pystr) :
  skip_ws (item_separator lv ++ s) = 44%N :: newline_indent lv ++ s.
Proof. reflexivity. Qed.

Lemma dumps_at_list (level : nat) (x : pyval) (xs : list pyval) :
  dumps_at level (PList (x :: xs))
  = 91%N :: newline_indent (S level)
        ++ join (item_separator (S level)) (List.map (dumps_at (S level)) (x :: xs))
        ++ newline_indent level ++ [93%N].
Proof. reflexivity. Qed.

Lemma dumps_at_dict (level : nat) (kv : pystr * pyval) (kvs : list (pystr * pyval)) :
  dumps_at level (PDict (kv :: kvs))
  = 123%N :: newline_indent (S level)
         ++ join (item_separator (S level)) (List.map (member_text (S level)) (kv :: kvs))
         ++ newline_indent level ++ [125%N].
Proof. reflexivity. Qed.

(** A dump starts where a value may start. *)
Lemma dumps_at_start (level : nat) (v : pyval) (rest : pystr) :
  value_start (dumps_at level v ++ rest).
Proof.
  destruct v as [ |b|z|s|xs|kvs].
  - simpl. repeat split; discriminate.
  - destruct b; simpl; repeat split; discriminate.
  - cbn [dumps_at]. destruct (int_repr_head z) as [c [r [-> Hc]]]. cbn [app value_start].
    destruct Hc as [Hc| ->]; [|repeat split; discriminate].
    unfold is_digit in Hc. apply andb_true_iff in Hc. destruct Hc as [H1 H2].
    apply N.leb_le in H1, H2.
    repeat split; try (intros ->; lia).
    unfold is_ws. repeat (apply orb_false_iff; split); apply N.eqb_neq; lia.
  - simpl. repeat split; discriminate.
  - destruct xs; simpl; repeat split; discriminate.
  - destruct kvs; simpl; repeat split; discriminate.
Qed.

Lemma join_cons2 (sep p q : pystr) (ps : list pystr) :
  join sep (p :: q :: ps) = p ++ sep ++ join sep (q :: ps).
Proof. reflexivity. Qed.

(** *** Containers *)

Lemma parse_value_array (fuel : nat) (r : pystr) :
  parse_value (S fuel) (91%N :: r)
  = match skip_ws r with
    | [] => None
    | c1 :: r2 =>
      if (c1 =? 93)%N then Some (PList [], r2)
      else match parse_elements fuel (c1 :: r2) with
           | Some (xs, rest) => Some (PList xs, rest)
           | None => None
           end
    end.
Proof. reflexivity. Qed.

Lemma parse_value_object (fuel : nat) (r : pystr) :
  parse_value (S fuel) (123%N :: r)
  = match skip_ws r with
    | [] => None
    | c1 :: r2 =>
      if (c1 =? 125)%N then Some (PDict [], r2)
      else match parse_members fuel (c1 :: r2) with
           | Some (kvs, rest) => Some (PDict (dict_of_pairs kvs), rest)
           | None => None
           end
    end.
Proof. reflexivity. Qed.

Lemma parse_elements_step (fuel : nat) (s : pystr) :
  parse_elements (S fuel) s
  = match parse_value fuel s with
    | None => None
    | Some (v, rest) =>
      match skip_ws rest with
      | [] => None
      | c :: r =>
        if (c =? 93)%N then Some ([v], r)
        else if (c =? 44)%N then
          match parse_elements fuel (skip_ws r) with
          | Some (vs, rest') => Some (v :: vs, rest')
          | None => None
          end
        else None
      end
    end.
Proof. reflexivity. Qed.

Lemma parse_members_step (fuel : nat) (r : pystr) :
  parse_members (S fuel) (34%N :: r)
  = match scanstring r with
    | None => None
    | Some (key, r1) =>
      match skip_ws r1 with
      | [] => None
      | c1 :: r2 =>
        if (c1 =? 58)%N then
          match parse_value fuel (skip_ws r2) with
          | None => None
          | Some (v, r3) =>
            match skip_ws r3 with
            | [] => None
            | c2 :: r4 =>
              if (c2 =? 125)%N then Some ([(key, v)], r4)
              else if (c2 =? 44)%N then
                match parse_members fuel (skip_ws r4) with
                | Some (kvs, rest') => Some ((key, v) :: kvs, rest')
                | None => None
                end
              else None
            end
          end
        else None
      end
    end.
Proof. reflexivity. Qed.

(** The elements of an array are read back up to its closing bracket. *)
Lemma elements_read_back (lv : nat) (xs : list pyval) :
  xs <> [] -> Forall reads_back xs ->
  forall (fuel : nat) (close rest : pystr),
    (List.length (join (item_separator lv) (List.map (dumps_at lv) xs)) < fuel)%nat ->
    skip_ws close = 93%N :: rest -> number_end close ->
    parse_elements fuel (join (item_separator lv) (List.map (dumps_at lv) xs) ++ close)
    = Some (xs, rest).
Proof.
  induction xs as [|x xs IH]; [congruence|]. intros _ Hall.
  inversion Hall as [|? ? Hx Hxs]; subst.
  intros fuel close rest Hfuel Hclose Hend.
  destruct fuel as [|fuel]; [lia|]. rewrite parse_elements_step.
  destruct xs as [|y ys].
  - cbn [List.map join] in *.
    rewrite (Hx fuel lv close) by (auto; lia).
    rewrite Hclose. reflexivity.
  - cbn [List.map] in *. rewrite join_cons2 in *.
    rewrite !length_app in Hfuel.
    rewrite <- !app_assoc.
    rewrite (Hx fuel lv) by (auto using number_end_separator; lia).
    rewrite after_separator. cbv beta iota.
    change ((44 =? 93)%N) with false. change ((44 =? 44)%N) with true. cbv beta iota.
    rewrite skip_ws_newline_indent.
    rewrite skip_ws_start.
    + rewrite (IH ltac:(discriminate) Hxs fuel close rest); auto.
      assert (1 <= List.length (item_separator lv))%nat by (simpl; lia).
      cbn [List.map]. lia.
    + destruct ys; cbn [List.map join]; [apply dumps_at_start|].
      rewrite <- app_assoc. apply dumps_at_start.
Qed.

Lemma member_text_app (lv : nat) (k : pystr) (v : pyval) (tail : pystr) :
  member_text lv (k, v) ++ tail
  = 34%N :: flat_map escape_char k ++ 34%N :: 58%N :: 32%N :: dumps_at lv v ++ tail.
Proof.
  unfold member_text, encode_basestring. cbn [fst snd].
  change (lit ": ") with [58%N; 32%N].
  cbn [app]. rewrite <- !app_assoc. reflexivity.
Qed.

Lemma member_text_length (lv : nat) (kv : pystr * pyval) :
  (List.length (dumps_at lv (snd kv)) < List.length (member_text lv kv))%nat.
Proof.
  unfold member_text, encode_basestring. rewrite !length_app. simpl. lia.
Qed.

(** The members of an object are read back up to its closing brace. *)
Lemma members_read_back (lv : nat) (kvs : list (pystr * pyval)) :
  kvs <> [] -> Forall (fun kv => reads_back (snd kv)) kvs ->
  forall (fuel : nat) (close rest : pystr),
    (List.length (join (item_separator lv) (List.map (member_text lv) kvs)) < fuel)%nat ->
    skip_ws close = 125%N :: rest -> number_end close ->
    parse_members fuel (join (item_separator lv) (List.map (member_text lv) kvs) ++ close)
    = Some (kvs, rest).
Proof.
  induction kvs as [|[k v] kvs IH]; [congruence|]. intros _ Hall.
  inversion Hall as [|? ? Hx Hxs]; subst. cbn [snd] in Hx.
  intros fuel close rest Hfuel Hclose Hend.
  destruct fuel as [|fuel]; [lia|].
  pose proof (member_text_length lv (k, v)) as Hlen. cbn [snd] in Hlen.
  destruct kvs as [|kv' kvs'].
  - cbn [List.map join] in *.
    rewrite member_text_app, parse_members_step, scanstring_encoded.
    cbn [skip_ws is_ws N.eqb Pos.eqb orb]. cbv beta iota.
    change ((58 =? 58)%N) with true. cbv beta iota.
    rewrite (skip_ws_start _ (dumps_at_start lv v close)).
    rewrite (Hx fuel lv close) by (auto; lia).
    rewrite Hclose. reflexivity.
  - cbn [List.map] in *. rewrite join_cons2 in *.
    rewrite !length_app in Hfuel.
    rewrite <- !app_assoc.
    rewrite member_text_app, parse_members_step, scanstring_encoded.
    cbn [skip_ws is_ws N.eqb Pos.eqb orb]. cbv beta iota.
    change ((58 =? 58)%N) with true. cbv beta iota.
    rewrite (skip_ws_start _ (dumps_at_start lv v _)).
    rewrite (Hx fuel lv) by (auto using number_end_separator; lia).
    rewrite after_separator. cbv beta iota.
    change ((44 =? 125)%N) with false. change ((44 =? 44)%N) with true. cbv beta iota.
    rewrite skip_ws_newline_indent.
    rewrite skip_ws_start.
    + rewrite (IH ltac:(discriminate) Hxs fuel close rest); auto.
      assert (1 <= List.length (item_separator lv))%nat by (simpl; lia).
      cbn [List.map]. lia.
    + destruct kv' as [k' v']. destruct kvs'; cbn [List.map join].
      * rewrite member_text_app. simpl. repeat split; discriminate.
      * rewrite <- app_assoc, member_text_app. simpl. repeat split; discriminate.
Qed.

(** *** Dicts built from distinct keys *)

Lemma dict_set_fresh (d : pydict) (k : pystr) (v : pyval) :
  ~ In k (dict_keys d) -> dict_set d k v = d ++ [(k, v)].
Proof.
  induction d as [|[k' v'] d IH]; simpl; intros H; [reflexivity|].
  destruct (pystr_eqb k' k) eqn:E.
  - apply pystr_eqb_eq in E. tauto.
  - rewrite IH by tauto. reflexivity.
Qed.

Lemma dict_of_pairs_distinct (kvs : list (pystr * pyval)) :
  NoDup (List.map fst kvs) -> dict_of_pairs kvs = kvs.
Proof.
  unfold dict_of_pairs.
  assert (G : forall acc, NoDup (List.map fst (acc ++ kvs)) ->
                          fold_left (fun d kv => dict_set d (fst kv) (snd kv)) kvs acc
                          = acc ++ kvs).
  { induction kvs as [|[k v] kvs IH]; intros acc ND; simpl.
    - now rewrite app_nil_r.
    - rewrite dict_set_fresh.
      + rewrite IH; rewrite <- app_assoc; [reflexivity|exact ND].
      + rewrite map_app in ND. simpl in ND. apply NoDup_remove_2 in ND.
        intros Hin. apply ND. apply in_or_app. now left. }
  intros ND. apply (G []). exact ND.
Qed.

Lemma pyval_ok_list (xs : list pyval) : pyval_ok (PList xs) -> Forall pyval_ok xs.
Proof.
  induction xs as [|x xs IH]; [constructor|].
  intros [Hx Hxs]. constructor; [exact Hx|]. apply IH. exact Hxs.
Qed.

Lemma pyval_ok_dict (kvs : list (pystr * pyval)) :
  pyval_ok (PDict kvs) ->
  NoDup (List.map fst kvs) /\ Forall (fun kv => pyval_ok (snd kv)) kvs.
Proof.
  intros [ND H]. split; [exact ND|]. clear ND.
  induction kvs as [|kv kvs IH]; [constructor|].
  destruct H as [Hx Hxs]. constructor; [exact Hx|]. apply IH. exact Hxs.
Qed.

Lemma parse_value_number (fuel : nat) (c : N) (r : pystr) :
  is_digit c = true \/ c = 45%N ->
  parse_value (S fuel) (c :: r) = scan_number (c :: r).
Proof.
  intros [Hd| ->]; [|reflexivity].
  unfold is_digit in Hd. apply andb_true_iff in Hd. destruct Hd as [H1 H2].
  apply N.leb_le in H1, H2.
  cbn [parse_value].
  replace (c =? 34)%N with false by (symmetry; apply N.eqb_neq; lia).
  replace (c =? 123)%N with false by (symmetry; apply N.eqb_neq; lia).
  replace (c =? 91)%N with false by (symmetry; apply N.eqb_neq; lia).
  change (lit "null") with [110%N; 117%N; 108%N; 108%N].
  change (lit "true") with [116%N; 114%N; 117%N; 101%N].
  change (lit "false") with [102%N; 97%N; 108%N; 115%N; 101%N].
  cbn [strip_prefix].
  replace (110 =? c)%N with false by (symmetry; apply N.eqb_neq; lia).
  replace (116 =? c)%N with false by (symmetry; apply N.eqb_neq; lia).
  replace (102 =? c)%N with false by (symmetry; apply N.eqb_neq; lia).
  reflexivity.
Qed.

(** Every value whose dicts have distinct keys is read back from its
    dump. *)
Theorem dumps_reads_back (v : pyval) : pyval_ok v -> reads_back v.
Proof.
  induction v as [ |b|z|s|xs IH|kvs IH] using pyval_nested_ind; intros Hok.
  - intros fuel level rest Hf _. destruct fuel; [simpl in Hf; lia|]. reflexivity.
  - intros fuel level rest Hf _. destruct fuel; [destruct b; simpl in Hf; lia|].
    destruct b; reflexivity.
  - intros fuel level rest Hf Hend. cbn [dumps_at] in *.
    destruct (int_repr_head z) as [c [r [E Hc]]].
    destruct fuel; [rewrite E in Hf; simpl in Hf; lia|].
    pose proof (scan_number_int z rest Hend) as Hs.
    rewrite E in *. cbn [app] in *.
    now rewrite parse_value_number.
  - intros fuel level rest Hf _. destruct fuel; [simpl in Hf; lia|].
    cbn [dumps_at]. unfold encode_basestring. cbn [app parse_value N.eqb Pos.eqb].
    rewrite <- app_assoc. cbn [app]. now rewrite scanstring_encoded.
  - intros fuel level rest Hf Hend.
    destruct xs as [|x xs]; [destruct fuel; [simpl in Hf; lia|reflexivity]|].
    rewrite dumps_at_list in *. cbn [List.length] in Hf.
    destruct fuel as [|fuel]; [lia|].
    cbn [app]. rewrite parse_value_array.
    rewrite <- !app_assoc. rewrite skip_ws_newline_indent.
    assert (Hs : value_start
                   (join (item_separator (S level)) (List.map (dumps_at (S level)) (x :: xs))
                         ++ newline_indent level ++ [93%N] ++ rest)).
    { cbn [List.map]. destruct xs; cbn [List.map join]; [apply dumps_at_start|].
      rewrite <- app_assoc. apply dumps_at_start. }
    rewrite (skip_ws_start _ Hs).
    assert (Hall : Forall reads_back (x :: xs)).
    { apply pyval_ok_list in Hok. rewrite Forall_forall in *.
      intros y Hy. apply IH; auto. }
    pose proof (elements_read_back (S level) (x :: xs) ltac:(discriminate) Hall fuel
                                   (newline_indent level ++ [93%N] ++ rest) rest) as He.
    rewrite !length_app in Hf. cbn [List.length] in Hf.
    rewrite skip_ws_newline_indent in He.
    specialize (He ltac:(lia) eq_refl (number_end_newline_indent _ _)).
    destruct (join (item_separator (S level)) (List.map (dumps_at (S level)) (x :: xs))
                   ++ newline_indent level ++ [93%N] ++ rest) as [|c1 r2] eqn:Et;
      [contradiction|].
    destruct Hs as [_ [Hc _]]. apply N.eqb_neq in Hc. rewrite Hc, He. reflexivity.
  - intros fuel level rest Hf Hend.
    destruct kvs as [|kv kvs]; [destruct fuel; [simpl in Hf; lia|reflexivity]|].
    rewrite dumps_at_dict in *. cbn [List.length] in Hf.
    destruct fuel as [|fuel]; [lia|].
    cbn [app]. rewrite parse_value_object.
    rewrite <- !app_assoc. rewrite skip_ws_newline_indent.
    assert (Hs : value_start
                   (join (item_separator (S level)) (List.map (member_text (S level)) (kv :: kvs))
                         ++ newline_indent level ++ [125%N] ++ rest)).
    { destruct kv as [k v]. cbn [List.map]. destruct kvs; cbn [List.map join].
      - rewrite member_text_app. simpl. repeat split; discriminate.
      - rewrite <- app_assoc, member_text_app. simpl. repeat split; discriminate. }
    rewrite (skip_ws_start _ Hs).
    apply pyval_ok_dict in Hok. destruct Hok as [ND Hoks].
    assert (Hall : Forall (fun kv => reads_back (snd kv)) (kv :: kvs)).
    { rewrite Forall_forall in *. intros y Hy. apply IH; auto. }
    pose proof (members_read_back (S level) (kv :: kvs) ltac:(discriminate) Hall fuel
                                  (newline_indent level ++ [125%N] ++ rest) rest) as He.
    rewrite !length_app in Hf. cbn [List.length] in Hf.
    rewrite skip_ws_newline_indent in He.
    specialize (He ltac:(lia) eq_refl (number_end_newline_indent _ _)).
    destruct (join (item_separator (S level)) (List.map (member_text (S level)) (kv :: kvs))
                   ++ newline_indent level ++ [125%N] ++ rest) as [|c1 r2] eqn:Et;
      [contradiction|].
    destruct Hs as [_ [_ Hc]]. apply N.eqb_neq in Hc. rewrite Hc, He.
    now rewrite (dict_of_pairs_distinct _ ND).
Qed.

(** [json.loads] undoes [json.dumps]. *)
Theorem json_loads_dumps (v : pyval) : pyval_ok v -> json_loads (json_dumps v) = Some v.
Proof.
  intros Hok. unfold json_loads, json_dumps.
  pose proof (dumps_at_start 0 v []) as Hs. rewrite app_nil_r in Hs.
  rewrite (skip_ws_start _ Hs).
  pose proof (dumps_reads_back v Hok (S (List.length (dumps_at 0 v))) 0%nat []
                               ltac:(lia) I) as Hr.
  rewrite app_nil_r in Hr. rewrite Hr. reflexivity.
Qed.

Lemma strip_prefix_app (p s : pystr) : strip_prefix p (p ++ s) = Some s.
Proof.
  induction p as [|c p IH]; simpl; [now destruct s|].
  now rewrite N.eqb_refl.
Qed.

(** The JSON text is recovered from the fenced block. *)
Lemma fenced_content_raw_value (pretty : pystr) :
  fenced_content (raw_value pretty) = Some pretty.
Proof.
  unfold fenced_content, raw_value.
  rewrite (app_assoc (lit "```json")), strip_prefix_app. cbv beta iota.
  rewrite (rev_app_distr pretty), strip_prefix_app.
  now rewrite rev_involutive.
Qed.

Lemma raw_block_only (isprintable : N -> bool) (data : pydict) :
  List.filter (fun f => pystr_eqb (field_name f) (lit "Raw JSON"))
              (expected_entries isprintable data ++ map_fields data ++ raw_fields data)
  = raw_fields data.
Proof.
  rewrite !filter_app. unfold expected_entries.
  rewrite (count_absent_label isprintable data FIELDS (lit "Raw JSON"))
    by (vm_compute; intuition discriminate).
  unfold map_fields, raw_fields.
  destruct (loc_components data) as [[lat lon]|];
    destruct (py_len (json_dumps (PDict data)) <? 1024); reflexivity.
Qed.

(** C4. For every result mapping (its dicts with distinct keys, as Python
    dicts have) the presenter returns a card; when the indented JSON text of
    the mapping has 1024 characters or more the card has no raw-JSON block;
    when it has fewer the card has exactly one, which holds the text between
    its fence lines, and reading that text back as JSON gives the mapping. *)
Theorem C4_raw_json_block (isprintable : N -> bool) (t : pystr) (data : pydict) :
  pyval_ok (PDict data) ->
  exists card,
    make_embed_from_data isprintable t data = Ok card /\
    (1024 <= py_len (json_dumps (PDict data)) ->
     has_field (lit "Raw JSON") card = false) /\
    (py_len (json_dumps (PDict data)) < 1024 ->
     exists block,
       List.filter (fun f => pystr_eqb (field_name f) (lit "Raw JSON")) (embed_fields card)
       = [block] /\
       fenced_content (field_value block) = Some (json_dumps (PDict data)) /\
       json_loads (json_dumps (PDict data)) = Some (PDict data)).
Proof.
  intros Hok. eexists. split; [apply make_embed_shape|].
  cbn [embed_fields]. split.
  - intros Hlong. unfold has_field. cbn [embed_fields].
    destruct (existsb _ _) eqn:E; [|reflexivity].
    apply existsb_exists in E. destruct E as [f [Hin Hname]].
    assert (Hf : In f (List.filter (fun f => pystr_eqb (field_name f) (lit "Raw JSON"))
                                   (expected_entries isprintable data
                                      ++ map_fields data ++ raw_fields data))).
    { apply filter_In. split; assumption. }
    rewrite raw_block_only in Hf. unfold raw_fields in Hf.
    replace (py_len (json_dumps (PDict data)) <? 1024) with false in Hf
      by (symmetry; apply Z.ltb_ge; lia).
    contradiction.
  - intros Hshort. rewrite raw_block_only. unfold raw_fields.
    replace (py_len (json_dumps (PDict data)) <? 1024) with true
      by (symmetry; apply Z.ltb_lt; lia).
    eexists. split; [reflexivity|]. cbn [field_value].
    split; [apply fenced_content_raw_value|now apply json_loads_dumps].
Qed.

Lemma C4_raw_json_block_witness :
  let data := [(lit "ip", PStr (lit "8.8.8.8"));
               (lit "hostname", PStr (lit "dns.google"));
               (lit "anycast", PBool true);
               (lit "asn", PDict [(lit "asn", PStr (lit "AS15169"));
                                  (lit "routes", PList [PInt 24; PInt (-1)])])] in
  pyval_ok (PDict data) /\
  exists card,
    make_embed_from_data ascii_printable (lit "8.8.8.8") data = Ok card /\
    (1024 <= py_len (json_dumps (PDict data)) ->
     has_field (lit "Raw JSON") card = false) /\
    (py_len (json_dumps (PDict data)) < 1024 ->
     exists block,
       List.filter (fun f => pystr_eqb (field_name f) (lit "Raw JSON")) (embed_fields card)
       = [block] /\
       fenced_content (field_value block) = Some (json_dumps (PDict data)) /\
       json_loads (json_dumps (PDict data)) = Some (PDict data)).
Proof.
  intros data.
  assert (Hok : pyval_ok (PDict data)).
  { cbn [pyval_ok data List.map fst snd].
    repeat split; apply distinctb_NoDup; reflexivity. }
  split; [exact Hok|].
  exact (C4_raw_json_block ascii_printable (lit "8.8.8.8") data Hok).
Defined.

(** A result with a long organisation name: no raw-JSON block. *)
Example long_result_has_no_raw_block :
  exists card,
    make_embed_from_data ascii_printable (lit "1.1.1.1") long_org_result = Ok card /\
    has_field (lit "Raw JSON") card = false /\
    (1024 <=? py_len (json_dumps (PDict long_org_result))) = true.
Proof. eexists. split; [vm_compute; reflexivity|]. split; vm_compute; reflexivity. Qed.

(* ===================================================================== *)
(** * Further properties of the code *)
(* ===================================================================== *)

(** ** The presenter *)

(** X1. The card the presenter builds step by step is, for every target and
    mapping: the title "IP info — <target>", the colour blurple, the display
    entries followed by the map block followed by the raw-JSON block, and
    the footer "Data provided by ipinfo.io". *)
Theorem X1_card_layout (isprintable : N -> bool) (t : pystr) (data : pydict) :
  make_embed_from_data isprintable t data
  = Ok {| embed_title := lit "IP info — " ++ t;
          embed_color := blurple;
          embed_fields := expected_entries isprintable data
                            ++ map_fields data ++ raw_fields data;
          embed_footer := Some (lit "Data provided by ipinfo.io") |}.
Proof. apply make_embed_shape. Qed.

Lemma expected_entries_length (isprintable : N -> bool) (data : pydict) :
  (List.length (expected_entries isprintable data) <= 9)%nat.
Proof.
  unfold expected_entries.
  assert (G : forall L, (List.length (flat_map (display_entry isprintable data) L)
                         <= List.length L)%nat).
  { induction L as [|lk L IH]; simpl; [lia|].
    rewrite length_app. unfold display_entry at 1.
    destruct (dict_get data (snd lk)) as [v|]; [destruct (truthy v)|];
      cbn [List.length]; lia. }
  apply (G FIELDS).
Qed.

(** X2. A card never has more than eleven fields: at most the nine display
    entries, one map block and one raw-JSON block. *)
Theorem X2_at_most_eleven_fields (isprintable : N -> bool) (t : pystr) (data : pydict) :
  exists card,
    make_embed_from_data isprintable t data = Ok card /\
    (List.length (embed_fields card) <= 11)%nat.
Proof.
  eexists. split; [apply make_embed_shape|]. cbn [embed_fields].
  rewrite !length_app.
  pose proof (expected_entries_length isprintable data).
  assert (List.length (map_fields data) <= 1)%nat.
  { unfold map_fields. destruct (loc_components data) as [[? ?]|]; simpl; lia. }
  assert (List.length (raw_fields data) <= 1)%nat.
  { unfold raw_fields. destruct (_ <? _); simpl; lia. }
  lia.
Qed.

Lemma raw_value_length (pretty : pystr) : py_len (raw_value pretty) = py_len pretty + 12.
Proof.
  unfold raw_value, py_len. rewrite !length_app.
  change (List.length (lit "```json")) with 7%nat.
  change (List.length (lit "```")) with 3%nat.
  cbn [List.length]. lia.
Qed.

(** X3. The value of the raw-JSON block is the JSON text between two fence
    lines, twelve characters longer than the text: the test on the text
    alone bounds the value by 1035 characters, not by 1023. *)
Theorem X3_raw_block_length (isprintable : N -> bool) (t : pystr) (data : pydict) :
  exists card,
    make_embed_from_data isprintable t data = Ok card /\
    forall block,
      In block (embed_fields card) ->
      field_name block = lit "Raw JSON" ->
      py_len (field_value block) = py_len (json_dumps (PDict data)) + 12
      /\ py_len (field_value block) < 1036.
Proof.
  eexists. split; [apply make_embed_shape|]. cbn [embed_fields].
  intros block Hin Hname.
  assert (Hf : In block (List.filter (fun f => pystr_eqb (field_name f) (lit "Raw JSON"))
                                     (expected_entries isprintable data
                                        ++ map_fields data ++ raw_fields data))).
  { apply filter_In. split; [assumption|]. rewrite Hname. apply pystr_eqb_refl. }
  rewrite raw_block_only in Hf. unfold raw_fields in Hf.
  destruct (py_len (json_dumps (PDict data)) <? 1024) eqn:E; [|contradiction].
  destruct Hf as [<-|[]]. cbn [field_value].
  rewrite raw_value_length. apply Z.ltb_lt in E. lia.
Qed.

(** The bound is reached: a mapping whose JSON text has 1023 characters gets
    a raw-JSON block of 1035 characters. *)
Example raw_block_of_1035_characters :
  let data := [(lit "org", PStr (repeat 97%N (N.to_nat 1008)))] in
  py_len (json_dumps (PDict data)) = 1023 /\
  List.map (fun f => py_len (field_value f)) (raw_fields data) = [1035].
Proof. split; vm_compute; reflexivity. Qed.

(** X4. Whenever the card has a map block it also has exactly one entry
    "Location (lat,long)", and that entry shows the text of [loc]. *)
Theorem X4_map_block_has_location_entry (isprintable : N -> bool) (t : pystr)
        (data : pydict) :
  exists card,
    make_embed_from_data isprintable t data = Ok card /\
    (has_field (lit "Map") card = true ->
     exists s,
       dict_get data (lit "loc") = Some (PStr s) /\
       List.filter (fun f => pystr_eqb (field_name f) (lit "Location (lat,long)"))
                   (embed_fields card)
       = [{| field_name := lit "Location (lat,long)"; field_value := s;
             field_inline := true |}]).
Proof.
  eexists. split; [apply make_embed_shape|].
  unfold has_field. cbn [embed_fields]. rewrite has_map_field.
  intros Hmap.
  assert (Hloc : exists s, dict_get data (lit "loc") = Some (PStr s) /\ s <> []).
  { unfold loc_components in Hmap.
    destruct (dict_get data (lit "loc")) as [[ | | |s| | ]|]; try discriminate.
    exists s. split; [reflexivity|]. intros ->. discriminate. }
  destruct Hloc as [s [Hs Hne]]. exists s. split; [exact Hs|].
  rewrite filter_app, blocks_not_named by reflexivity.
  rewrite app_nil_r. unfold expected_entries.
  assert (G : forall L,
             NoDup (List.map fst L) -> In (lit "Location (lat,long)", lit "loc") L ->
             List.filter (fun f => pystr_eqb (field_name f) (lit "Location (lat,long)"))
                         (flat_map (display_entry isprintable data) L)
             = [{| field_name := lit "Location (lat,long)"; field_value := s;
                   field_inline := true |}]).
  { induction L as [|[l k] L IH]; simpl; intros ND Hin; [contradiction|].
    inversion ND as [|? ? Hnotin ND']; subst.
    rewrite filter_app. destruct Hin as [Heq|Hin].
    - inversion Heq; subst l k.
      rewrite (count_absent_label isprintable data L _ Hnotin), app_nil_r.
      unfold display_entry. cbn [fst snd]. rewrite Hs.
      destruct s as [|c s]; [congruence|]. reflexivity.
    - rewrite (IH ND' Hin).
      assert (Hne' : pystr_eqb l (lit "Location (lat,long)") = false).
      { apply pystr_eqb_neq. intros ->. apply Hnotin.
        change (lit "Location (lat,long)") with (fst (lit "Location (lat,long)", lit "loc")).
        now apply in_map. }
      unfold display_entry. cbn [fst snd].
      destruct (dict_get data k) as [v|]; [|reflexivity].
      destruct (truthy v); [|reflexivity].
      cbn [List.filter field_name]. now rewrite Hne'. }
  apply G; [apply FIELDS_labels_distinct|].
  unfold FIELDS. simpl. tauto.
Qed.

(** ** The shrinking pass *)

Lemma dict_get_filter_raw (d : pydict) (k : pystr) :
  dict_get (List.filter (fun kv => negb (pystr_eqb (fst kv) (lit "raw"))) d) k
  = if pystr_eqb k (lit "raw") then None else dict_get d k.
Proof.
  induction d as [|[k' v'] d IH]; simpl.
  - now destruct (pystr_eqb k (lit "raw")).
  - destruct (pystr_eqb k' (lit "raw")) eqn:E'; simpl.
    + rewrite IH. destruct (pystr_eqb k (lit "raw")) eqn:E; [reflexivity|].
      destruct (pystr_eqb k' k) eqn:Ek; [|reflexivity].
      apply pystr_eqb_eq in Ek, E'. subst. rewrite pystr_eqb_refl in E. discriminate.
    + destruct (pystr_eqb k' k) eqn:Ek.
      * apply pystr_eqb_eq in Ek. subst k'. now rewrite E'.
      * exact IH.
Qed.

Lemma filter_keys_distinct (f : pystr * pyval -> bool) (d : pydict) :
  dict_ok d -> dict_ok (List.filter f d).
Proof.
  unfold dict_ok, dict_keys. induction d as [|kv d IH]; simpl; intros ND; [constructor|].
  inversion ND as [|? ? Hnotin ND']; subst.
  destruct (f kv); simpl; [|auto].
  constructor; [|auto]. intros Hin. apply Hnotin.
  apply in_map_iff in Hin. destruct Hin as [x [Hx Hin]].
  apply filter_In in Hin. rewrite <- Hx. apply in_map. tauto.
Qed.

(** X5. For a dict with distinct keys, the dict comprehension of the
    shrinking pass is again a dict with distinct keys; it has nothing under
    "raw" and keeps the value of every other key. *)
Theorem X5_drop_raw_lookup (d : pydict) :
  dict_ok d ->
  dict_ok (drop_raw d) /\
  forall k, dict_get (drop_raw d) k
            = if pystr_eqb k (lit "raw") then None else dict_get d k.
Proof.
  intros Hok. rewrite (drop_raw_filter d Hok). split.
  - now apply filter_keys_distinct.
  - apply dict_get_filter_raw.
Qed.

Lemma X5_drop_raw_lookup_witness :
  dict_ok long_org_result /\
  dict_get (drop_raw long_org_result) (lit "raw") = None /\
  dict_get (drop_raw long_org_result) (lit "ip") = dict_get long_org_result (lit "ip").
Proof.
  assert (Hok : dict_ok long_org_result) by (apply distinctb_NoDup; reflexivity).
  split; [exact Hok|].
  split; [exact (proj2 (X5_drop_raw_lookup long_org_result Hok) (lit "raw"))
         |exact (proj2 (X5_drop_raw_lookup long_org_result Hok) (lit "ip"))].
Defined.

Lemma expected_entries_drop_raw (isprintable : N -> bool) (d : pydict) :
  dict_ok d ->
  expected_entries isprintable (drop_raw d) = expected_entries isprintable d.
Proof.
  intros Hok. rewrite (drop_raw_filter d Hok).
  unfold expected_entries, FIELDS, display_entry. cbn [flat_map fst snd].
  rewrite !dict_get_filter_raw. reflexivity.
Qed.

Lemma map_fields_drop_raw (d : pydict) :
  dict_ok d -> map_fields (drop_raw d) = map_fields d.
Proof.
  intros Hok. rewrite (drop_raw_filter d Hok).
  unfold map_fields, loc_components. rewrite dict_get_filter_raw. reflexivity.
Qed.

(** X6. The card of the shrinking pass differs from the first card in the
    raw-JSON block only: title, colour, footer and every other field, in
    their order, are those of the first card. *)
Theorem X6_shrink_keeps_other_fields (isprintable : N -> bool) (t : pystr) (d : pydict) :
  dict_ok d ->
  exists card reduced,
    make_embed_from_data isprintable t d = Ok card /\
    make_embed_from_data isprintable t (drop_raw d) = Ok reduced /\
    embed_title reduced = embed_title card /\
    embed_color reduced = embed_color card /\
    embed_footer reduced = embed_footer card /\
    List.filter (fun f => negb (pystr_eqb (field_name f) (lit "Raw JSON")))
                (embed_fields reduced)
    = List.filter (fun f => negb (pystr_eqb (field_name f) (lit "Raw JSON")))
                  (embed_fields card).
Proof.
  intros Hok. eexists. eexists.
  split; [apply make_embed_shape|]. split; [apply make_embed_shape|].
  cbn [embed_title embed_color embed_footer embed_fields].
  repeat (split; [reflexivity|]).
  rewrite (expected_entries_drop_raw isprintable d Hok), (map_fields_drop_raw d Hok).
  rewrite !filter_app. f_equal. f_equal.
  unfold raw_fields.
  destruct (py_len (json_dumps (PDict (drop_raw d))) <? 1024);
    destruct (py_len (json_dumps (PDict d)) <? 1024); reflexivity.
Qed.

Lemma X6_shrink_keeps_other_fields_witness :
  dict_ok long_org_result /\
  exists card reduced,
    make_embed_from_data ascii_printable (lit "1.1.1.1") long_org_result = Ok card /\
    make_embed_from_data ascii_printable (lit "1.1.1.1") (drop_raw long_org_result)
    = Ok reduced /\
    embed_title reduced = embed_title card /\
    embed_color reduced = embed_color card /\
    embed_footer reduced = embed_footer card /\
    List.filter (fun f => negb (pystr_eqb (field_name f) (lit "Raw JSON")))
                (embed_fields reduced)
    = List.filter (fun f => negb (pystr_eqb (field_name f) (lit "Raw JSON")))
                  (embed_fields card).
Proof.
  assert (Hok : dict_ok long_org_result) by (apply distinctb_NoDup; reflexivity).
  split; [exact Hok|].
  exact (X6_shrink_keeps_other_fields ascii_printable (lit "1.1.1.1") long_org_result Hok).
Defined.

Lemma fields_len_app (a b : list EmbedField) :
  fields_len (a ++ b) = fields_len a + fields_len b.
Proof. unfold fields_len. induction a as [|f a IH]; simpl; [reflexivity|]. lia. Qed.

Lemma raw_fields_len_bounds (d : pydict) : 0 <= fields_len (raw_fields d) <= 1043.
Proof.
  unfold raw_fields. destruct (py_len (json_dumps (PDict d)) <? 1024) eqn:E.
  - unfold fields_len. cbn [fold_right field_name field_value].
    rewrite raw_value_length. change (py_len (lit "Raw JSON")) with 8.
    apply Z.ltb_lt in E. unfold py_len in *. lia.
  - simpl. lia.
Qed.

Lemma card_len_shape (isprintable : N -> bool) (t : pystr) (d : pydict) :
  card_len isprintable t d
  = py_len (lit "IP info — " ++ t)
    + (fields_len (expected_entries isprintable d) + fields_len (map_fields d)
       + fields_len (raw_fields d))
    + 26.
Proof.
  unfold card_len. rewrite make_embed_shape. unfold embed_len.
  cbn [embed_title embed_fields embed_footer].
  change (fold_right _ 0 ?l) with (fields_len l).
  rewrite !fields_len_app.
  change (py_len (lit "Data provided by ipinfo.io")) with 26. lia.
Qed.

(** X7. The shrinking pass changes the length of a card by at most 1043
    characters, the largest raw-JSON block. So when the lookup of a
    non-empty target succeeds with a mapping (distinct keys, no bogon, no
    error) whose card is longer than 7043 characters, the handler renders
    twice and sends a card that is still longer than the ceiling of 6000. *)
Theorem X7_oversize_stays_oversize (isprintable : N -> bool) (ipinfo_token : pyval)
        (net : pystr -> pydict -> http_outcome) (target : pystr) (d : pydict) :
  target <> [] ->
  fetched net ipinfo_token target d ->
  dict_ok d ->
  field_set d (lit "bogon") = false ->
  field_set d (lit "error") = false ->
  7043 < card_len isprintable target d ->
  exists reduced,
    ipinfo_cmd isprintable ipinfo_token net target
    = ([Typing; HttpGet (lookup_url target) (lookup_params ipinfo_token) 10;
        Render target d; Render target (drop_raw d); SendEmbed reduced], Ok tt)
    /\ 6000 < embed_len reduced.
Proof.
  intros Hne Hf Hok Hb He Hlong.
  assert (Hred : 6000 < card_len isprintable target (drop_raw d)).
  { rewrite card_len_shape in *.
    rewrite (expected_entries_drop_raw isprintable d Hok), (map_fields_drop_raw d Hok).
    pose proof (raw_fields_len_bounds d). pose proof (raw_fields_len_bounds (drop_raw d)).
    lia. }
  rewrite (ipinfo_cmd_fetched isprintable ipinfo_token net target d Hne Hf).
  rewrite !truthy_get_none, Hb, He. cbv zeta.
  unfold card_len in *.
  destruct (make_embed_from_data isprintable target d) as [card|e]; [|lia].
  destruct (make_embed_from_data isprintable target (drop_raw d)) as [reduced|e]; [|lia].
  replace (embed_len card >? 6000) with true
    by (symmetry; rewrite Z.gtb_ltb; apply Z.ltb_lt; lia).
  exists reduced. split; [reflexivity|exact Hred].
Qed.

Lemma X7_oversize_stays_oversize_witness :
  let d := huge_org_result in
  let target := lit "1.1.1.1" in
  target <> [] /\ fetched (answers (PDict d)) PNone target d /\ dict_ok d /\
  field_set d (lit "bogon") = false /\ field_set d (lit "error") = false /\
  7043 < card_len ascii_printable target d /\
  exists reduced,
    ipinfo_cmd ascii_printable PNone (answers (PDict d)) target
    = ([Typing; HttpGet (lookup_url target) (lookup_params PNone) 10;
        Render target d; Render target (drop_raw d); SendEmbed reduced], Ok tt)
    /\ 6000 < embed_len reduced.
Proof.
  intros d target.
  assert (Hne : target <> []) by discriminate.
  pose proof (answers_fetched PNone target d) as Hf.
  assert (Hok : dict_ok d) by (apply distinctb_NoDup; reflexivity).
  assert (Hb : field_set d (lit "bogon") = false) by reflexivity.
  assert (He : field_set d (lit "error") = false) by reflexivity.
  assert (Hlong : 7043 < card_len ascii_printable target d) by (vm_compute; reflexivity).
  repeat (split; [assumption|]).
  exact (X7_oversize_stays_oversize ascii_printable PNone (answers (PDict d)) target d
                                    Hne Hf Hok Hb He Hlong).
Defined.

(** ** The lookup and its failures *)

(** X8. When the provider answers a lookup of a non-empty target with a
    status other than 200, the body is not parsed: the handler sends one
    message, "Error al obtener datos: ipinfo returned status <status>:
    <body>", calls the presenter not at all and ends normally. *)
Theorem X8_provider_error (isprintable : N -> bool) (ipinfo_token : pyval)
        (net : pystr -> pydict -> http_outcome) (target : pystr) (resp : http_response) :
  target <> [] ->
  net (lookup_url target) (lookup_params ipinfo_token) = Responded resp ->
  resp_status resp <> 200 ->
  ipinfo_cmd isprintable ipinfo_token net target
  = ([Typing; HttpGet (lookup_url target) (lookup_params ipinfo_token) 10;
      Send (lit "Error al obtener datos: " ++ lit "ipinfo returned status "
                ++ int_repr (resp_status resp) ++ lit ": " ++ resp_text resp)],
     Ok tt).
Proof.
  intros Hne Hnet Hst.
  rewrite (ipinfo_cmd_raised isprintable ipinfo_token net target
             (Exn ValueError (lit "ipinfo returned status " ++ int_repr (resp_status resp)
                                  ++ lit ": " ++ resp_text resp)) Hne).
  - reflexivity.
  - rewrite fetch_ipinfo_request, Hnet. cbn [snd].
    apply Z.eqb_neq in Hst. now rewrite Hst.
Qed.

Lemma X8_provider_error_witness :
  let resp := {| resp_status := 404; resp_text := lit "Not Found";
                 resp_json := Raise (Exn JSONDecodeError (lit "Expecting value")) |} in
  let net := fun (_ : pystr) (_ : pydict) => Responded resp in
  lit "nowhere" <> [] /\
  net (lookup_url (lit "nowhere")) (lookup_params PNone) = Responded resp /\
  resp_status resp <> 200 /\
  ipinfo_cmd ascii_printable PNone net (lit "nowhere")
  = ([Typing; HttpGet (lookup_url (lit "nowhere")) (lookup_params PNone) 10;
      Send (lit "Error al obtener datos: " ++ lit "ipinfo returned status "
                ++ int_repr (resp_status resp) ++ lit ": " ++ resp_text resp)],
     Ok tt).
Proof.
  intros resp net.
  assert (Hne : lit "nowhere" <> []) by discriminate.
  assert (Hnet : net (lookup_url (lit "nowhere")) (lookup_params PNone) = Responded resp)
    by reflexivity.
  assert (Hst : resp_status resp <> 200) by discriminate.
  repeat (split; [assumption|]).
  exact (X8_provider_error ascii_printable PNone net (lit "nowhere") resp Hne Hnet Hst).
Defined.

(** X9. When the provider answers with status 200 and reading the body as
    JSON raises, the handler answers by the class of the error: a body that
    is no JSON (a [JSONDecodeError], which is a [ValueError]) gives "Error
    al obtener datos: <detail>"; a body of the wrong content type
    (aiohttp's [ContentTypeError], a [ClientError]) is logged and gives the
    network-error message. In both cases one message is sent and the
    handler ends normally. *)
Theorem X9_unreadable_body (isprintable : N -> bool) (ipinfo_token : pyval)
        (net : pystr -> pydict -> http_outcome) (target text : pystr) (e : exn) :
  target <> [] ->
  net (lookup_url target) (lookup_params ipinfo_token)
  = Responded {| resp_status := 200; resp_text := text; resp_json := Raise e |} ->
  (exn_class e = JSONDecodeError ->
   ipinfo_cmd isprintable ipinfo_token net target
   = ([Typing; HttpGet (lookup_url target) (lookup_params ipinfo_token) 10;
       Send (lit "Error al obtener datos: " ++ exn_text e)], Ok tt)) /\
  (exn_class e = ContentTypeError ->
   ipinfo_cmd isprintable ipinfo_token net target
   = ([Typing; HttpGet (lookup_url target) (lookup_params ipinfo_token) 10;
       LogException (lit "Network error fetching ipinfo");
       Send (lit "Error de red al consultar ipinfo: " ++ exn_text e)], Ok tt)).
Proof.
  intros Hne Hnet.
  assert (Hr : snd (fetch_ipinfo ipinfo_token net target) = Raise e)
    by (rewrite fetch_ipinfo_request, Hnet; reflexivity).
  rewrite (ipinfo_cmd_raised isprintable ipinfo_token net target e Hne Hr).
  split; intros ->; reflexivity.
Qed.

Lemma X9_unreadable_body_witness :
  let e := Exn JSONDecodeError (lit "Expecting value: line 1 column 1 (char 0)") in
  let net := fun (_ : pystr) (_ : pydict) =>
               Responded {| resp_status := 200; resp_text := lit "<html>";
                            resp_json := Raise e |} in
  lit "8.8.8.8" <> [] /\
  ipinfo_cmd ascii_printable PNone net (lit "8.8.8.8")
  = ([Typing; HttpGet (lookup_url (lit "8.8.8.8")) (lookup_params PNone) 10;
      Send (lit "Error al obtener datos: " ++ exn_text e)], Ok tt).
Proof.
  intros e net.
  assert (Hne : lit "8.8.8.8" <> []) by discriminate.
  split; [exact Hne|].
  exact (proj1 (X9_unreadable_body ascii_printable PNone net (lit "8.8.8.8") (lit "<html>") e
                                   Hne eq_refl) eq_refl).
Defined.

(** X10. When the provider answers with status 200 and a JSON body that is
    not an object (an array, a string, a number, true, false or null), the
    first [data.get] raises [AttributeError] outside the [try]: the handler
    ends with that error after its one remote call, and sends nothing. *)
Theorem X10_body_not_an_object (isprintable : N -> bool) (ipinfo_token : pyval)
        (net : pystr -> pydict -> http_outcome) (target text : pystr) (data : pyval) :
  target <> [] ->
  net (lookup_url target) (lookup_params ipinfo_token)
  = Responded {| resp_status := 200; resp_text := text; resp_json := Ok data |} ->
  (forall d, data <> PDict d) ->
  ipinfo_cmd isprintable ipinfo_token net target
  = ([Typing; HttpGet (lookup_url target) (lookup_params ipinfo_token) 10],
     Raise (no_attribute data (lit "get"))).
Proof.
  intros Hne Hnet Hnd.
  assert (Hr : snd (fetch_ipinfo ipinfo_token net target) = Ok data)
    by (rewrite fetch_ipinfo_request, Hnet; reflexivity).
  exact (ipinfo_cmd_not_a_dict isprintable ipinfo_token net target data Hne Hr Hnd).
Qed.

Lemma X10_body_not_an_object_witness :
  let net := answers (PList []) in
  lit "8.8.8.8" <> [] /\
  (forall d, PList [] <> PDict d) /\
  ipinfo_cmd ascii_printable PNone net (lit "8.8.8.8")
  = ([Typing; HttpGet (lookup_url (lit "8.8.8.8")) (lookup_params PNone) 10],
     Raise (Exn AttributeError (lit "'list' object has no attribute 'get'"))).
Proof.
  intros net.
  assert (Hne : lit "8.8.8.8" <> []) by discriminate.
  assert (Hnd : forall d, PList [] <> PDict d) by discriminate.
  repeat (split; [assumption|]).
  exact (X10_body_not_an_object ascii_printable PNone net (lit "8.8.8.8")
                                (json_dumps (PList [])) (PList []) Hne eq_refl Hnd).
Defined.

(** Count the events of an explicit trace. *)
Ltac count_events :=
  cbv [http_calls render_calls replies List.filter List.length
       is_http_get is_render is_reply app];
  try reflexivity; try lia.

(** X11. Every run of the handler, for every target and whatever the network
    does, starts with the typing indicator, makes at most one remote call
    and calls the presenter at most twice. It ends normally after exactly
    one message to the channel, or it raises after none, and it raises only
    when the lookup returned a value that is not a mapping. *)
Theorem X11_one_reply (isprintable : N -> bool) (ipinfo_token : pyval)
        (net : pystr -> pydict -> http_outcome) (target : pystr) :
  exists tr r,
    ipinfo_cmd isprintable ipinfo_token net target = (Typing :: tr, r) /\
    (http_calls tr <= 1)%nat /\
    (render_calls tr <= 2)%nat /\
    match r with
    | Ok _ => replies tr = 1%nat
    | Raise e =>
      replies tr = 0%nat /\
      exists data, snd (fetch_ipinfo ipinfo_token net target) = Ok data
                   /\ (forall d, data <> PDict d)
                   /\ e = no_attribute data (lit "get")
    end.
Proof.
  destruct target as [|c target].
  { eexists. eexists. split; [reflexivity|]. repeat split; count_events. }
  assert (Hne : c :: target <> []) by discriminate.
  destruct (snd (fetch_ipinfo ipinfo_token net (c :: target))) as [data|e] eqn:E.
  - destruct data as [ | b | z | s | xs | d].
    1-5: rewrite (ipinfo_cmd_not_a_dict isprintable ipinfo_token net _ _ Hne E)
      by discriminate;
      eexists; eexists; (split; [reflexivity|]);
      (split; [count_events|]); (split; [count_events|]);
      (split; [reflexivity|]); eexists; (split; [reflexivity|]);
      (split; [discriminate|reflexivity]).
    rewrite (ipinfo_cmd_returned isprintable ipinfo_token net _ d Hne E). cbv zeta.
    rewrite !make_embed_shape.
    destruct (truthy (dict_get_none d (lit "bogon")));
      [eexists; eexists; split; [reflexivity|]; repeat split; count_events|].
    destruct (truthy (dict_get_none d (lit "error")));
      [eexists; eexists; split; [reflexivity|]; repeat split; count_events|].
    match goal with |- context [if ?c then _ else _] => destruct c end;
      eexists; eexists; (split; [reflexivity|]); repeat split; count_events.
  - rewrite (ipinfo_cmd_raised isprintable ipinfo_token net _ e Hne E).
    destruct (is_ClientError (exn_class e));
      [eexists; eexists; split; [reflexivity|]; repeat split; count_events|].
    destruct (is_ValueError (exn_class e));
      eexists; eexists; (split; [reflexivity|]); repeat split; count_events.
Qed.

(** ** Start-up *)

(** An [or] chain takes the first present value, and the last one when none
    is present. *)
Lemma py_or_chain (a b c : pyval) :
  py_or (py_or a b) c
  = match first_present [a; b] with
    | Some v => v
    | None => c
    end.
Proof.
  unfold py_or, first_present. cbn [List.find].
  destruct (truthy a) eqn:Ta; cbv beta iota; [now rewrite Ta|].
  destruct (truthy b) eqn:Tb; reflexivity.
Qed.

(** Start-up with a configuration whose bot section can be read. *)
Lemma startup_readable (path : pystr) (f : config_file) (env : pystr -> option pystr)
      (section : pydict) :
  py_get (fst (load_config path f)) (lit "BOT_CONFIG") (PDict []) = Ok (PDict section) ->
  startup path f env
  = let token := py_or (py_or (dict_get_none section (lit "TOKEN"))
                              (getenv env (lit "BOT_TOKEN")))
                       (getenv env (lit "DISCORD_TOKEN")) in
    let prefix := py_or (py_or (dict_get_none section (lit "PREFIX"))
                               (getenv env (lit "BOT_PREFIX")))
                        (PStr (lit "!")) in
    let api_token := py_or (py_or (dict_get_none section (lit "IPINFO_TOKEN"))
                                  (getenv env (lit "IPINFO_TOKEN")))
                           (getenv env (lit "IPINFO_IO_TOKEN")) in
    if negb (truthy token)
    then (snd (load_config path f) ++ [LogError no_token_msg], SystemExit 1)
    else (snd (load_config path f)
              ++ (if negb (truthy api_token) then [LogWarning no_ipinfo_token_msg] else [])
              ++ [BotCreated prefix;
                  CommandRegistered (lit "help");
                  CommandRegistered (lit "ipinfo");
                  ListenerRegistered (lit "on_ready");
                  BotRun token],
          Running).
Proof.
  intros Hsec. unfold startup.
  destruct (load_config path f) as [config log]. cbn [fst snd] in *.
  unfold resolve_bot_token, resolve_prefix, resolve_ipinfo_token, resolve, config_value.
  rewrite Hsec. reflexivity.
Qed.

(** Start-up with a configuration whose bot section cannot be read. *)
Lemma startup_unreadable (path : pystr) (f : config_file) (env : pystr -> option pystr)
      (e : exn) :
  config_value (fst (load_config path f)) (lit "TOKEN") = Raise e ->
  startup path f env = (snd (load_config path f), Uncaught e).
Proof.
  intros Hraise. unfold startup.
  destruct (load_config path f) as [config log]. cbn [fst snd] in *.
  unfold resolve_bot_token, resolve. now rewrite Hraise.
Qed.

Lemma config_value_raises (config : pyval) (k : pystr) (e : exn) :
  config_value config k = Raise e -> exn_class e = AttributeError.
Proof.
  unfold config_value, py_get.
  destruct config as [ | | | | |c]; cbn [rbind]; try (intros H; inversion H; reflexivity).
  destruct (match dict_get c (lit "BOT_CONFIG") with Some x => x | None => PDict [] end)
    as [ | | | | |s]; intros H; inversion H; reflexivity.
Qed.

Lemma py_or_true (a b : pyval) : truthy a = true -> py_or a b = a.
Proof. unfold py_or. now intros ->. Qed.

Lemma py_or_false (a b : pyval) : truthy a = false -> py_or a b = b.
Proof. unfold py_or. now intros ->. Qed.

(** The configuration the program reads is what the file gives. *)
Lemma config_value_of_file (path : pystr) (f : config_file) (key : pystr) :
  match file_value f key with
  | Some v => config_value (fst (load_config path f)) key = Ok v
  | None =>
    snd (load_config path f) = [] /\
    exists e, config_value (fst (load_config path f)) key = Raise e
  end.
Proof.
  destruct f as [ |e|v]; try reflexivity.
  cbn [file_value load_config fst snd]. unfold py_or.
  destruct (truthy v) eqn:T; [|reflexivity].
  destruct v as [ | | | | |c]; try (split; [reflexivity|eexists; reflexivity]).
  unfold config_value, py_get.
  destruct (dict_get c (lit "BOT_CONFIG")) as [[ | | | | |s]|];
    try reflexivity; split; try reflexivity; eexists; reflexivity.
Qed.

(** C7, evaluated on the code. Where the configuration file gives a value
    for [TOKEN] (the file is missing, unreadable or empty, or its bot
    section is a mapping or absent), the bot credential is the first present
    one of that value, the environment variable BOT_TOKEN and the
    environment variable DISCORD_TOKEN, and the bot runs with it; if none of
    the three is present, start-up logs the fatal line and ends with exit
    status 1, and neither the bot is created nor a command registered. Where
    the document or its bot section is not a mapping (an empty section
    [BOT_CONFIG:] is the simplest case), reading the credential raises
    [AttributeError]: the environment is not consulted, no fatal line is
    logged, and start-up dies of the uncaught error, whatever the
    environment holds. *)
Theorem C7_bot_token_resolution (path : pystr) (f : config_file)
        (env : pystr -> option pystr) :
  match file_value f (lit "TOKEN") with
  | Some file_token =>
    let candidates := [file_token; getenv env (lit "BOT_TOKEN");
                       getenv env (lit "DISCORD_TOKEN")] in
    (forall token,
        first_present candidates = Some token ->
        resolve_bot_token (fst (load_config path f)) env = Ok token /\
        exists events, startup path f env = (events ++ [BotRun token], Running)) /\
    (first_present candidates = None ->
     startup path f env
     = (snd (load_config path f) ++ [LogError no_token_msg], SystemExit 1)
     /\ List.filter is_registration (fst (startup path f env)) = [])
  | None =>
    exists e,
      exn_class e = AttributeError /\
      resolve_bot_token (fst (load_config path f)) env = Raise e /\
      startup path f env = ([], Uncaught e)
  end.
Proof.
  pose proof (config_value_of_file path f (lit "TOKEN")) as Hfile.
  destruct (file_value f (lit "TOKEN")) as [file_token|].
  - destruct (config_value_section _ _ _ Hfile) as [section [Hsec Hall]].
    assert (Hft : file_token = dict_get_none section (lit "TOKEN")).
    { rewrite Hall in Hfile. now inversion Hfile. }
    assert (Hres : resolve_bot_token (fst (load_config path f)) env
                   = Ok (py_or (py_or file_token (getenv env (lit "BOT_TOKEN")))
                               (getenv env (lit "DISCORD_TOKEN")))).
    { unfold resolve_bot_token, resolve. rewrite Hfile. reflexivity. }
    rewrite (startup_readable path f env section Hsec). rewrite <- Hft.
    cbv zeta. unfold first_present. cbn [List.find].
    split.
    + intros token Htok.
      assert (Hpy : py_or (py_or file_token (getenv env (lit "BOT_TOKEN")))
                          (getenv env (lit "DISCORD_TOKEN")) = token
                    /\ truthy token = true).
      { destruct (truthy file_token) eqn:T1.
        - inversion Htok; subst token.
          rewrite (py_or_true _ _ T1), (py_or_true _ _ T1). auto.
        - rewrite (py_or_false _ _ T1).
          destruct (truthy (getenv env (lit "BOT_TOKEN"))) eqn:T2.
          + inversion Htok; subst token. rewrite (py_or_true _ _ T2). auto.
          + rewrite (py_or_false _ _ T2).
            destruct (truthy (getenv env (lit "DISCORD_TOKEN"))) eqn:T3; [|discriminate].
            inversion Htok; subst token. auto. }
      destruct Hpy as [Hpy Ht].
      rewrite Hres, Hpy, Ht. cbn [negb].
      split; [reflexivity|].
      match goal with
      | |- exists events, (?l ++ ?w ++ [?a; ?b; ?c; ?d; BotRun ?r], _) = _ =>
        exists (l ++ w ++ [a; b; c; d])
      end.
      rewrite <- !app_assoc. reflexivity.
    + intros Hnone.
      assert (Ht : truthy (py_or (py_or file_token (getenv env (lit "BOT_TOKEN")))
                                 (getenv env (lit "DISCORD_TOKEN"))) = false).
      { destruct (truthy file_token) eqn:T1; [discriminate|].
        rewrite (py_or_false _ _ T1).
        destruct (truthy (getenv env (lit "BOT_TOKEN"))) eqn:T2; [discriminate|].
        rewrite (py_or_false _ _ T2).
        destruct (truthy (getenv env (lit "DISCORD_TOKEN"))) eqn:T3; [discriminate|].
        reflexivity. }
      rewrite Ht. cbn [negb fst].
      split; [reflexivity|].
      rewrite filter_app, load_config_log. reflexivity.
  - destruct Hfile as [Hlog [e He]].
    exists e. split; [exact (config_value_raises _ _ _ He)|].
    split.
    + unfold resolve_bot_token, resolve. now rewrite He.
    + rewrite (startup_unreadable path f env e He). now rewrite Hlog.
Qed.

(** An empty bot section in the file and BOT_TOKEN in the environment:
    start-up dies of the error instead of taking the credential from the
    environment. *)
Lemma C7_empty_section_witness :
  startup (lit "config.yml") (FileLoaded (PDict [(lit "BOT_CONFIG", PNone)]))
          (fun name => if pystr_eqb name (lit "BOT_TOKEN") then Some (lit "abc") else None)
  = ([], Uncaught (Exn AttributeError (lit "'NoneType' object has no attribute 'get'"))).
Proof.
  pose proof (C7_bot_token_resolution
                (lit "config.yml") (FileLoaded (PDict [(lit "BOT_CONFIG", PNone)]))
                (fun name => if pystr_eqb name (lit "BOT_TOKEN") then Some (lit "abc")
                             else None)) as H.
  cbn [file_value truthy] in H.
  change (dict_get [(lit "BOT_CONFIG", PNone)] (lit "BOT_CONFIG")) with (Some PNone) in H.
  cbv beta iota in H.
  destruct H as [e [_ [Hres Hstart]]].
  rewrite Hstart. f_equal. f_equal.
  assert (Hr : resolve_bot_token
                 (fst (load_config (lit "config.yml")
                                   (FileLoaded (PDict [(lit "BOT_CONFIG", PNone)]))))
                 (fun name => if pystr_eqb name (lit "BOT_TOKEN") then Some (lit "abc")
                              else None)
               = Raise (Exn AttributeError (lit "'NoneType' object has no attribute 'get'")))
    by reflexivity.
  rewrite Hr in Hres. now inversion Hres.
Defined.

(** A credential in the file comes before the environment, and BOT_TOKEN
    before DISCORD_TOKEN. *)
Example credential_precedence :
  resolve_bot_token
    (fst (load_config (lit "config.yml")
                      (FileLoaded (PDict [(lit "BOT_CONFIG",
                                           PDict [(lit "TOKEN", PStr (lit "file"))])]))))
    (fun _ => Some (lit "env"))
  = Ok (PStr (lit "file"))
  /\ resolve_bot_token (fst (load_config (lit "config.yml") FileAbsent))
                       (fun name => if pystr_eqb name (lit "BOT_TOKEN")
                                    then Some (lit "first") else Some (lit "second"))
     = Ok (PStr (lit "first"))
  /\ resolve_bot_token (fst (load_config (lit "config.yml") FileAbsent))
                       (fun name => if pystr_eqb name (lit "DISCORD_TOKEN")
                                    then Some (lit "second") else None)
     = Ok (PStr (lit "second")).
Proof. repeat split; reflexivity. Qed.

(** X12. However the configuration file and the environment look, start-up
    ends in one of three ways. It runs the bot, and then the credential it
    passes is present, and the commands help and ipinfo were registered
    before. Or it exits with status 1 after the fatal log line, with nothing
    created or registered. Or it dies of an [AttributeError] from reading
    the configuration, again with nothing created or registered. *)
Theorem X12_startup_outcomes (path : pystr) (f : config_file)
        (env : pystr -> option pystr) :
  match startup path f env with
  | (events, Running) =>
    exists before token,
      events = before ++ [BotRun token] /\ truthy token = true /\
      In (CommandRegistered (lit "help")) before /\
      In (CommandRegistered (lit "ipinfo")) before
  | (events, SystemExit status) =>
    status = 1 /\ List.filter is_registration events = [] /\
    In (LogError no_token_msg) events
  | (events, Uncaught e) =>
    exn_class e = AttributeError /\ List.filter is_registration events = []
  end.
Proof.
  destruct (config_value (fst (load_config path f)) (lit "TOKEN")) as [v|e] eqn:E.
  - destruct (config_value_section _ _ _ E) as [section [Hsec _]].
    rewrite (startup_readable path f env section Hsec). cbv zeta.
    destruct (truthy (py_or (py_or (dict_get_none section (lit "TOKEN"))
                                   (getenv env (lit "BOT_TOKEN")))
                            (getenv env (lit "DISCORD_TOKEN")))) eqn:T; cbn [negb].
    + match goal with
      | |- exists before token, ?l ++ ?w ++ [?a; ?b; ?c; ?d; BotRun ?r] = _ /\ _ =>
        exists (l ++ w ++ [a; b; c; d]), r
      end.
      split; [rewrite <- !app_assoc; reflexivity|]. split; [exact T|].
      split; apply in_or_app; right; apply in_or_app; right; simpl; tauto.
    + split; [reflexivity|]. split.
      * rewrite filter_app, load_config_log. reflexivity.
      * apply in_or_app. right. now left.
  - rewrite (startup_unreadable path f env e E).
    split; [exact (config_value_raises _ _ _ E)|apply load_config_log].
Qed.

(** X13. A configuration file that is missing, or that cannot be read or
    parsed, never stops start-up by itself: one line is logged and the
    credential comes from the environment alone, BOT_TOKEN before
    DISCORD_TOKEN. With one of them present the bot runs with it; with none
    start-up exits with status 1 after the fatal line. *)
Theorem X13_no_config_file (path : pystr) (f : config_file)
        (env : pystr -> option pystr) :
  (f = FileAbsent \/ exists e, f = FileBroken e) ->
  List.length (snd (load_config path f)) = 1%nat /\
  match first_present [getenv env (lit "BOT_TOKEN"); getenv env (lit "DISCORD_TOKEN")] with
  | Some token =>
    exists before, startup path f env = (before ++ [BotRun token], Running)
  | None =>
    startup path f env
    = (snd (load_config path f) ++ [LogError no_token_msg], SystemExit 1)
  end.
Proof.
  intros Hf.
  assert (Hsec : py_get (fst (load_config path f)) (lit "BOT_CONFIG") (PDict [])
                 = Ok (PDict [])).
  { destruct Hf as [->|[e ->]]; reflexivity. }
  split; [destruct Hf as [->|[e ->]]; reflexivity|].
  rewrite (startup_readable path f env [] Hsec). cbv zeta.
  change (dict_get_none [] (lit "TOKEN")) with PNone.
  rewrite (py_or_false PNone (getenv env (lit "BOT_TOKEN")) eq_refl).
  unfold first_present. cbn [List.find].
  destruct (truthy (getenv env (lit "BOT_TOKEN"))) eqn:T1.
  - rewrite (py_or_true _ (getenv env (lit "DISCORD_TOKEN")) T1), T1. cbn [negb].
    match goal with
    | |- exists before, (?l ++ ?w ++ [?a; ?b; ?c; ?d; ?r], _) = _ =>
      exists (l ++ w ++ [a; b; c; d])
    end.
    rewrite <- !app_assoc. reflexivity.
  - rewrite (py_or_false _ (getenv env (lit "DISCORD_TOKEN")) T1).
    destruct (truthy (getenv env (lit "DISCORD_TOKEN"))) eqn:T2; cbn [negb];
      [|reflexivity].
    match goal with
    | |- exists before, (?l ++ ?w ++ [?a; ?b; ?c; ?d; ?r], _) = _ =>
      exists (l ++ w ++ [a; b; c; d])
    end.
    rewrite <- !app_assoc. reflexivity.
Qed.

Lemma X13_no_config_file_witness :
  let env := fun name : pystr =>
               if pystr_eqb name (lit "DISCORD_TOKEN") then Some (lit "abc") else None in
  (FileBroken (Exn OtherException (lit "mapping values are not allowed here")) = FileAbsent
   \/ exists e, FileBroken (Exn OtherException (lit "mapping values are not allowed here"))
                = FileBroken e) /\
  exists before,
    startup (lit "config.yml")
            (FileBroken (Exn OtherException (lit "mapping values are not allowed here"))) env
    = (before ++ [BotRun (PStr (lit "abc"))], Running).
Proof.
  intros env.
  assert (Hf : FileBroken (Exn OtherException (lit "mapping values are not allowed here"))
               = FileAbsent
               \/ exists e, FileBroken (Exn OtherException
                                            (lit "mapping values are not allowed here"))
                            = FileBroken e)
    by (right; eexists; reflexivity).
  split; [exact Hf|].
  exact (proj2 (X13_no_config_file (lit "config.yml") _ env Hf)).
Defined.

(** X14. A configuration file that loads but has the wrong shape stops
    start-up with an uncaught [AttributeError], before anything is logged,
    created or registered, and whatever the environment holds: so it is
    when the document is not a mapping (and not an empty value), and so it
    is when its key BOT_CONFIG holds something that is not a mapping, an
    empty section ([null]) included. *)
Theorem X14_wrong_shape_config (path : pystr) (env : pystr -> option pystr) :
  (forall v,
      truthy v = true -> (forall d, v <> PDict d) ->
      startup path (FileLoaded v) env = ([], Uncaught (no_attribute v (lit "get")))) /\
  (forall c s,
      dict_get c (lit "BOT_CONFIG") = Some s -> (forall d, s <> PDict d) ->
      startup path (FileLoaded (PDict c)) env
      = ([], Uncaught (no_attribute s (lit "get")))).
Proof.
  split.
  - intros v Tv Hv.
    apply (startup_unreadable path (FileLoaded v) env).
    cbn [load_config fst]. unfold py_or. rewrite Tv.
    destruct v as [ | | | | |d]; try reflexivity. exfalso. now apply (Hv d).
  - intros c s Hs Hnd.
    apply (startup_unreadable path (FileLoaded (PDict c)) env).
    cbn [load_config fst]. unfold py_or.
    assert (Tc : truthy (PDict c) = true) by (destruct c; [discriminate|reflexivity]).
    rewrite Tc. unfold config_value, py_get. rewrite Hs. cbn [rbind].
    destruct s as [ | | | | |d]; try reflexivity. exfalso. now apply (Hnd d).
Qed.

(** An empty bot section makes start-up fail although BOT_TOKEN is set. *)
Example empty_section_stops_startup :
  startup (lit "config.yml") (FileLoaded (PDict [(lit "BOT_CONFIG", PNone)]))
          (fun _ => Some (lit "abc"))
  = ([], Uncaught (Exn AttributeError (lit "'NoneType' object has no attribute 'get'"))).
Proof.
  apply (proj2 (X14_wrong_shape_config (lit "config.yml") (fun _ => Some (lit "abc")))
               [(lit "BOT_CONFIG", PNone)] PNone); [reflexivity|discriminate].
Qed.

(** X15. With a configuration whose bot section can be read, the command
    prefix is the first present one of the value [PREFIX] of the file and
    the environment variable BOT_PREFIX, and "!" when neither is present; it
    is never empty, and it is the prefix the bot is created with. *)
Theorem X15_prefix_resolution (path : pystr) (f : config_file)
        (env : pystr -> option pystr) (file_prefix : pyval) :
  config_value (fst (load_config path f)) (lit "PREFIX") = Ok file_prefix ->
  exists prefix,
    resolve_prefix (fst (load_config path f)) env = Ok prefix /\
    prefix = match first_present [file_prefix; getenv env (lit "BOT_PREFIX")] with
             | Some v => v
             | None => PStr (lit "!")
             end /\
    truthy prefix = true /\
    (snd (startup path f env) = Running ->
     In (BotCreated prefix) (fst (startup path f env))).
Proof.
  intros Hcfg.
  destruct (config_value_section _ _ _ Hcfg) as [section [Hsec Hall]].
  assert (Hfp : file_prefix = dict_get_none section (lit "PREFIX")).
  { rewrite Hall in Hcfg. now inversion Hcfg. }
  eexists. split; [unfold resolve_prefix, resolve; rewrite Hcfg; reflexivity|].
  cbn [rbind]. split; [apply py_or_chain|]. split.
  - rewrite py_or_chain. unfold first_present. cbn [List.find].
    destruct (truthy file_prefix) eqn:T1; [exact T1|].
    destruct (truthy (getenv env (lit "BOT_PREFIX"))) eqn:T2; [exact T2|reflexivity].
  - rewrite (startup_readable path f env section Hsec). cbv zeta.
    destruct (negb (truthy _)); cbn [fst snd]; [discriminate|].
    intros _. subst file_prefix.
    apply in_or_app. right. apply in_or_app. right. now left.
Qed.

Lemma X15_prefix_resolution_witness :
  config_value (fst (load_config (lit "config.yml") FileAbsent)) (lit "PREFIX") = Ok PNone /\
  resolve_prefix (fst (load_config (lit "config.yml") FileAbsent)) (fun _ => None)
  = Ok (PStr (lit "!")).
Proof.
  assert (Hcfg : config_value (fst (load_config (lit "config.yml") FileAbsent)) (lit "PREFIX")
                 = Ok PNone) by reflexivity.
  split; [exact Hcfg|].
  destruct (X15_prefix_resolution (lit "config.yml") FileAbsent (fun _ => None) PNone Hcfg)
    as [prefix [Hres [Hp _]]].
  rewrite Hres, Hp. reflexivity.
Defined.

(** X16. With a configuration whose bot section can be read, the API
    credential is the first present one of the value [IPINFO_TOKEN] of the
    file, the environment variable IPINFO_TOKEN and the environment variable
    IPINFO_IO_TOKEN. When one is present every lookup carries it as the
    query parameter [token]. When none is present start-up still runs the
    bot (given a bot credential), after a warning, and every lookup goes out
    without query parameter. *)
Theorem X16_api_token (path : pystr) (f : config_file)
        (env : pystr -> option pystr) (file_token : pyval) :
  config_value (fst (load_config path f)) (lit "IPINFO_TOKEN") = Ok file_token ->
  exists api_token,
    resolve_ipinfo_token (fst (load_config path f)) env = Ok api_token /\
    match first_present [file_token; getenv env (lit "IPINFO_TOKEN");
                         getenv env (lit "IPINFO_IO_TOKEN")] with
    | Some v =>
      api_token = v /\
      forall net target,
        fst (fetch_ipinfo api_token net target)
        = [HttpGet (lookup_url target) [(lit "token", v)] 10]
    | None =>
      (forall net target,
          fst (fetch_ipinfo api_token net target) = [HttpGet (lookup_url target) [] 10]) /\
      (snd (startup path f env) = Running ->
       In (LogWarning no_ipinfo_token_msg) (fst (startup path f env)))
    end.
Proof.
  intros Hcfg.
  destruct (config_value_section _ _ _ Hcfg) as [section [Hsec Hall]].
  assert (Hft : file_token = dict_get_none section (lit "IPINFO_TOKEN")).
  { rewrite Hall in Hcfg. now inversion Hcfg. }
  eexists. split; [unfold resolve_ipinfo_token, resolve; rewrite Hcfg; reflexivity|].
  cbn [rbind].
  assert (Hreq : forall tok net target,
             fst (fetch_ipinfo tok net target)
             = [HttpGet (lookup_url target) (lookup_params tok) 10]).
  { intros. now rewrite fetch_ipinfo_request. }
  unfold first_present. cbn [List.find].
  destruct (truthy file_token) eqn:T1.
  - rewrite (py_or_true file_token _ T1), (py_or_true file_token _ T1).
    split; [reflexivity|]. intros. rewrite Hreq. unfold lookup_params. now rewrite T1.
  - rewrite (py_or_false file_token _ T1).
    destruct (truthy (getenv env (lit "IPINFO_TOKEN"))) eqn:T2.
    + rewrite (py_or_true _ _ T2).
      split; [reflexivity|]. intros. rewrite Hreq. unfold lookup_params. now rewrite T2.
    + rewrite (py_or_false _ _ T2).
      destruct (truthy (getenv env (lit "IPINFO_IO_TOKEN"))) eqn:T3.
      * split; [reflexivity|]. intros. rewrite Hreq. unfold lookup_params. now rewrite T3.
      * split.
        -- intros. rewrite Hreq. unfold lookup_params. now rewrite T3.
        -- rewrite (startup_readable path f env section Hsec). cbv zeta.
           destruct (negb (truthy (py_or (py_or (dict_get_none section (lit "TOKEN")) _) _)));
             cbn [fst snd]; [discriminate|].
           intros _. subst file_token.
           rewrite (py_or_false _ (getenv env (lit "IPINFO_TOKEN")) T1).
           rewrite (py_or_false _ (getenv env (lit "IPINFO_IO_TOKEN")) T2).
           rewrite T3. cbn [negb].
           apply in_or_app. right. now left.
Qed.

Lemma X16_api_token_witness :
  let f := FileLoaded (PDict [(lit "BOT_CONFIG",
                               PDict [(lit "IPINFO_TOKEN", PStr (lit "k1"))])]) in
  let env := fun _ : pystr => Some (lit "k2") in
  config_value (fst (load_config (lit "config.yml") f)) (lit "IPINFO_TOKEN")
  = Ok (PStr (lit "k1")) /\
  resolve_ipinfo_token (fst (load_config (lit "config.yml") f)) env = Ok (PStr (lit "k1")).
Proof.
  intros f env.
  assert (Hcfg : config_value (fst (load_config (lit "config.yml") f)) (lit "IPINFO_TOKEN")
                 = Ok (PStr (lit "k1"))) by reflexivity.
  split; [exact Hcfg|].
  destruct (X16_api_token (lit "config.yml") f env (PStr (lit "k1")) Hcfg)
    as [tok [Hres [Htok _]]].
  rewrite Hres, Htok. reflexivity.
Defined.

(** ** The raw JSON text *)

(** X17. The indented JSON text determines the value: every value whose
    dicts have distinct keys, nested at any depth and whatever it holds
    (null, booleans, integers, strings with quotes, backslashes, control
    characters or non-ASCII characters, arrays, objects), is read back from
    its text; hence two such values with the same text are equal. *)
Theorem X17_json_text_round_trip (v : pyval) :
  pyval_ok v ->
  json_loads (json_dumps v) = Some v /\
  forall w, pyval_ok w -> json_dumps w = json_dumps v -> w = v.
Proof.
  intros Hv. split; [now apply json_loads_dumps|].
  intros w Hw Heq.
  pose proof (json_loads_dumps w Hw) as Lw.
  pose proof (json_loads_dumps v Hv) as Lv.
  rewrite Heq in Lw. congruence.
Qed.

Lemma X17_json_text_round_trip_witness :
  let v := PList [PStr [34%N; 92%N; 10%N; 1%N; 233%N; 128512%N]; PInt (-120); PInt 0;
                  PNone; PBool false; PDict [(lit "a b", PList []); (lit "", PDict [])]] in
  pyval_ok v /\ json_loads (json_dumps v) = Some v.
Proof.
  intros v.
  assert (Hv : pyval_ok v).
  { cbn [pyval_ok v List.map fst snd]. repeat split; apply distinctb_NoDup; reflexivity. }
  split; [exact Hv|]. exact (proj1 (X17_json_text_round_trip v Hv)).
Defined.
